(** * Synthetic routing data generator: model and verified properties

    Shallow embedding of [data_generator_script.py]: the spherical-cap point
    sampler, the attribute bundle generator, the location table builder and
    the vehicle table builder.

    Conventions of the embedding.
    - Python [int] is [Z]; list positions and loop counters are [nat].
    - Python [float] values that go through [math] (coordinates, angles) are
      read twice.  [Geo] reads them as real numbers [R]: the geometry of the
      sampler in exact arithmetic.  [Geo64] reads the same lines on binary64
      with the functions of the C library as a parameter: what holds bit for
      bit.
    - The two places where binary64 rounding decides an integer result are
      modelled bit-exactly on dyadic numbers: [0.30 * len(df)] followed by
      [math.ceil], and [round(random.random(), 2)].
    - The module-level generator of [random] and the wall clock behind
      [datetime.now()] are the two ambient effects; they are threaded
      explicitly through a state monad.
    - A call that can raise returns a [Raised] value, and an exception ends
      the run of the caller.  [math.asin] raises [ValueError] when rounding
      takes its argument out of [[-1, 1]]: [Geo64] decides this from the
      answer of the C library, as CPython does; where coordinates are real
      numbers the decision is a parameter of the generators. *)

From Stdlib Require Import ZArith Reals Lra Lia Bool String Ascii List.
From Stdlib Require Import DecimalString DecimalNat FinFun.
From Stdlib Require Floats Uint63.
Import ListNotations.

(* ================================================================== *)
(** * Numbers as Python has them *)
(* ================================================================== *)

Module PyNum.

Open Scope Z_scope.

(** Nearest integer to [a / b] for [b > 0], ties going to the even
    neighbour: the rounding rule of binary64 arithmetic and of [round]. *)
Definition round_half_even_div (a b : Z) : Z :=
  let q := a / b in
  let r := a mod b in
  if 2 * r <? b then q
  else if b <? 2 * r then q + 1
  else if Z.even q then q else q + 1.

(** A finite non-negative binary64 value is kept as [(m, e)], standing for
    [m * 2^e].  [round53] rounds the exact dyadic [t * 2^e] to 53 significant
    bits, to nearest even (the exponent range plays no role for the values
    the program forms). *)
Definition round53 (t e : Z) : Z * Z :=
  let s := Z.log2 t - 52 in
  if s <=? 0 then (t, e) else (round_half_even_div t (2 ^ s), e + s).

(** [float(n)] for a non-negative [int]. *)
Definition float_of_int (n : Z) : Z * Z := round53 n 0.

(** [x * y] on binary64: the exact product, rounded once. *)
Definition float_mul (x y : Z * Z) : Z * Z :=
  round53 (fst x * fst y) (snd x + snd y).

(** [math.ceil] of the binary64 value [m * 2^e]; the result is an [int]. *)
Definition ceil (x : Z * Z) : Z :=
  let (m, e) := x in
  if 0 <=? e then m * 2 ^ e else - ((- m) / 2 ^ (- e)).

(** The literal [0.30]: the double nearest to 3/10. *)
Definition lit_0_30 : Z * Z := (5404319552844595, -54).

(** The literal [0.10]: the double nearest to 1/10. *)
Definition lit_0_10 : Z * Z := (7205759403792794, -56).

(** [x < y] on binary64 values, decided exactly. *)
Definition float_lt (x y : Z * Z) : bool :=
  let e := Z.min (snd x) (snd y) in
  fst x * 2 ^ (snd x - e) <? fst y * 2 ^ (snd y - e).

(** [random.random()] returns [k / 2^53] for a 53-bit integer [k]; the
    draw is carried as [k]. *)
Definition two53 : Z := 2 ^ 53.

Definition float_of_random (k : Z) : Z * Z := (k, -53).

(** [round(k / 2^53, 2)]: the exact value of the double is rounded to two
    decimals, ties to even.  The result is carried as its number of
    hundredths [h]; the float returned is the double nearest to [h / 100]. *)
Definition round2_hundredths (k : Z) : Z := round_half_even_div (100 * k) two53.

(** Decimal digits of a natural number. *)
Definition digits (n : nat) : string := NilEmpty.string_of_uint (Nat.to_uint n).

Fixpoint zeros (n : nat) : string :=
  match n with
  | O => EmptyString
  | S n' => String "0"%char (zeros n')
  end.

Definition zero_pad (width : nat) (s : string) : string :=
  (zeros (width - String.length s) ++ s)%string.

(** The format specification [0{width}d]: sign-aware zero padding. *)
Definition format_0d (width : nat) (z : Z) : string :=
  if z <? 0
  then ("-" ++ zero_pad (width - 1) (digits (Z.abs_nat z)))%string
  else zero_pad width (digits (Z.abs_nat z)).

(** [int(s)] for a string of decimal digits. *)
Definition int_of_digits (s : string) : option nat :=
  option_map Nat.of_uint (NilEmpty.uint_of_string s).

(** [int(ident[1:])]: the index an identifier such as ["L007"] carries
    after its letter. *)
Definition index_of_id (ident : string) : option nat :=
  match ident with
  | EmptyString => None
  | String _ rest => int_of_digits rest
  end.

End PyNum.

(* ================================================================== *)
(** * The machine's binary64, to check the dyadic model against *)
(* ================================================================== *)

Module PyNum64.

Import Floats.
Local Open Scope float_scope.
Local Set Warnings "-inexact-float".

(** A finite non-negative binary64 number as mantissa and exponent. *)
Definition pair_of (x : float) : Z * Z :=
  match Prim2SF x with
  | S754_finite false m e => (Zpos m, e)
  | _ => (0%Z, 0%Z)
  end.

(** The literals [0.30] and [0.10] as the parser of floats reads them. *)
Definition lit_0_30 : float := 0.30.
Definition lit_0_10 : float := 0.10.

(** [0.30 * float(n)] computed by the machine, for [0 <= n < 2^63]. *)
Definition product_0_30 (n : Z) : Z * Z :=
  pair_of (lit_0_30 * of_uint63 (Uint63.of_Z n)).

(** Two pairs that stand for the same number. *)
Definition same_value (x y : Z * Z) : bool :=
  let e := Z.min (snd x) (snd y) in
  (fst x * 2 ^ (snd x - e) =? fst y * 2 ^ (snd y - e))%Z.

(** Row counts on which the two are compared: the small ones, and some
    around and beyond [2^53], where [float(n)] itself rounds. *)
Definition sample_counts : list Z :=
  map Z.of_nat (seq 0 3000)
  ++ map (fun i => 2 ^ 53 + 12345 * Z.of_nat i)%Z (seq 0 500)
  ++ map (fun i => 2 ^ 62 - 123456789 * Z.of_nat i)%Z (seq 0 500)
  ++ map (fun i => 2 ^ Z.of_nat i - 1)%Z (seq 0 63)
  ++ map (fun i => 2 ^ Z.of_nat i + 1)%Z (seq 0 62)
  ++ map (fun i => 10 * 2 ^ Z.of_nat i)%Z (seq 0 58).

End PyNum64.

(* ================================================================== *)
(** * Exceptions *)
(* ================================================================== *)

(** Outcome of a call that may raise. *)
Inductive Raised (A : Type) : Type :=
| Returned (a : A)
| ValueError (message : string).

Arguments Returned {A} a.
Arguments ValueError {A} message.

(** [k] runs on the value returned; an exception goes through. *)
Definition and_then {A B} (r : Raised A) (k : A -> Raised B) : Raised B :=
  match r with
  | Returned a => k a
  | ValueError message => ValueError message
  end.

Declare Scope raised_scope.
Delimit Scope raised_scope with raised.
Notation "x <~ r ;; k" := (and_then r (fun x => k))
  (at level 61, r at next level, right associativity) : raised_scope.

(* ================================================================== *)
(** * Geometry on real numbers *)
(* ================================================================== *)

Module Geo.

Open Scope R_scope.

(** [math.radians], [math.degrees]. *)
Definition radians (x : R) : R := x * (PI / 180).
Definition degrees (x : R) : R := x * (180 / PI).

(** [math.atan2(y, x)] on real arguments. *)
Definition atan2 (y x : R) : R :=
  if Rlt_dec 0 x then atan (y / x)
  else if Rlt_dec x 0 then
    if Rle_dec 0 y then atan (y / x) + PI else atan (y / x) - PI
  else if Rlt_dec 0 y then PI / 2
  else if Rlt_dec y 0 then - (PI / 2)
  else 0.

(** Nearest integer to a real, ties to even. *)
Definition round_half_even (x : R) : Z :=
  let f := Int_part x in
  let d := x - IZR f in
  if Rlt_dec d (1 / 2) then f
  else if Rlt_dec (1 / 2) d then (f + 1)%Z
  else if Z.even f then f else (f + 1)%Z.

(** [round(x, 6)]. *)
Definition round6 (x : R) : R := IZR (round_half_even (x * 1000000)) / 1000000.

Definition R_EARTH_MILES : R := 39588 / 10.

(** The value of the double [k / 2^53] returned by [random.random()]. *)
Definition unit_float (k : Z) : R := IZR k / IZR PyNum.two53.

(** [random.uniform(a, b)] is [a + (b - a) * random()]. *)
Definition uniform_of (a b : R) (k : Z) : R := a + (b - a) * unit_float k.

(** Body of [_random_point_within_radius] once the two draws [u] and
    [bearing] are made (lines 29-31, 33-34 and 37-49), in exact
    arithmetic.  The program computes these lines on binary64 ([Geo64]):
    what is proved of this reading holds of the program up to the rounding
    of each operation. *)
Definition point_of_draws (lat_center lon_center radius_miles u bearing : R)
  : R * R :=
  let ang_rad := radius_miles / R_EARTH_MILES in
  let cos_theta := 1 - u * (1 - cos ang_rad) in
  let theta := acos cos_theta in
  let lat0 := radians lat_center in
  let lon0 := radians lon_center in
  let lat_new :=
    asin (sin lat0 * cos theta + cos lat0 * sin theta * cos bearing) in
  let lon_new :=
    lon0 + atan2 (sin bearing * sin theta * cos lat0)
                 (cos theta - sin lat0 * sin lat_new) in
  (degrees lat_new, degrees lon_new).

(** Components of the destination point in the frame of the center: along
    the polar axis (the argument of [asin] above), and the two that span
    the plane of the equator. *)
Definition dest_polar (lat0 theta bearing : R) : R :=
  sin lat0 * cos theta + cos lat0 * sin theta * cos bearing.
Definition dest_meridian (lat0 theta bearing : R) : R :=
  cos lat0 * cos theta - sin lat0 * sin theta * cos bearing.
Definition dest_east (theta bearing : R) : R :=
  sin bearing * sin theta.

(** Great-circle distance in miles between two points given in degrees, by
    the spherical law of cosines on the sphere of radius [R_EARTH_MILES].
    This is the measure the sampler's contract is stated against; the
    program itself never computes it. *)
Definition central_angle (p q : R * R) : R :=
  let lat1 := radians (fst p) in
  let lat2 := radians (fst q) in
  let dlon := radians (snd q) - radians (snd p) in
  acos (sin lat1 * sin lat2 + cos lat1 * cos lat2 * cos dlon).

Definition great_circle_miles (p q : R * R) : R :=
  R_EARTH_MILES * central_angle p q.

End Geo.

(* ================================================================== *)
(** * Geometry on binary64 *)
(* ================================================================== *)

(** The same body read on binary64 numbers.  The arithmetic is that of the
    machine; the five functions of the C library that [math] calls are a
    parameter, and [math] turns their answers into exceptions as CPython
    does. *)
Module Geo64.

Import Floats.
Local Open Scope float_scope.
Local Set Warnings "-inexact-float".

Record Libm : Type := mkLibm {
  m_cos : float -> float;
  m_sin : float -> float;
  m_acos : float -> float;
  m_asin : float -> float;
  m_atan2 : float -> float -> float
}.

(** [math.pi], and the two constants [math.radians] and [math.degrees]
    multiply by. *)
Definition Py_MATH_PI : float := 0x1.921fb54442d18p+1.
Definition degToRad : float := Py_MATH_PI / 180.
Definition radToDeg : float := 180 / Py_MATH_PI.

Definition radians (x : float) : float := x * degToRad.
Definition degrees (x : float) : float := x * radToDeg.

Definition R_EARTH_MILES : float := 3958.8.

(** A one-argument function of [math] on top of the library's: CPython
    raises [ValueError] when the library answers NaN to an argument that
    is not NaN, or an infinity to a finite argument. *)
Definition math_1 (f : float -> float) (x : float) : Raised float :=
  let r := f x in
  if (is_nan r && negb (is_nan x)) || (is_infinity r && is_finite x)
  then ValueError "math domain error"
  else Returned r.

(** [math.atan2], likewise; the library's [atan2] answers no infinity. *)
Definition math_2 (f : float -> float -> float) (y x : float) : Raised float :=
  let r := f y x in
  if is_nan r && negb (is_nan y) && negb (is_nan x)
  then ValueError "math domain error"
  else Returned r.

Local Open Scope raised_scope.

(** Lines 29-31 and 33-34: the polar angle, from the radius and the draw
    [u]. *)
Definition polar_angle (libm : Libm) (radius_miles u : float) : Raised float :=
  let ang_rad := radius_miles / R_EARTH_MILES in
  cos_ang <~ math_1 (m_cos libm) ang_rad ;;
  let cos_theta := 1 - u * (1 - cos_ang) in
  math_1 (m_acos libm) cos_theta.

(** Lines 37-49: the point at angular distance [theta] from the center in
    the direction [bearing].  The calls are in the order Python makes them;
    a call repeated by the source on the same argument is made once. *)
Definition destination (libm : Libm)
    (lat_center lon_center theta bearing : float) : Raised (float * float) :=
  let lat0 := radians lat_center in
  let lon0 := radians lon_center in
  sin_lat0 <~ math_1 (m_sin libm) lat0 ;;
  cos_theta <~ math_1 (m_cos libm) theta ;;
  cos_lat0 <~ math_1 (m_cos libm) lat0 ;;
  sin_theta <~ math_1 (m_sin libm) theta ;;
  cos_bearing <~ math_1 (m_cos libm) bearing ;;
  lat_new <~ math_1 (m_asin libm)
               (sin_lat0 * cos_theta + cos_lat0 * sin_theta * cos_bearing) ;;
  sin_bearing <~ math_1 (m_sin libm) bearing ;;
  sin_lat_new <~ math_1 (m_sin libm) lat_new ;;
  dlon <~ math_2 (m_atan2 libm)
            (sin_bearing * sin_theta * cos_lat0)
            (cos_theta - sin_lat0 * sin_lat_new) ;;
  let lon_new := lon0 + dlon in
  Returned (degrees lat_new, degrees lon_new).

(** Body of [_random_point_within_radius] once the two draws [u] and
    [bearing] are made. *)
Definition point_of_draws (libm : Libm)
    (lat_center lon_center radius_miles u bearing : float)
  : Raised (float * float) :=
  theta <~ polar_angle libm radius_miles u ;;
  destination libm lat_center lon_center theta bearing.

Local Close Scope raised_scope.


(** The cosine of the library is an even function. *)
Definition cos_even (libm : Libm) : Prop :=
  forall x, m_cos libm (- x) = m_cos libm x.



Definition is_zero (x : float) : bool :=
  match Prim2SF x with
  | S754_zero _ => true
  | _ => false
  end.


(** A library of first approximations, good for small angles: it lets the
    sampler run on chosen numbers.  Its cosine is even. *)
Definition small_angles : Libm :=
  {| m_cos x := 1 - x * x / 2;
     m_sin x := x;
     m_acos x := sqrt (2 * (1 - x));
     m_asin x := x;
     m_atan2 y x := y / x |}.

End Geo64.

(* ================================================================== *)
(** * The ambient effects: random source and wall clock *)
(* ================================================================== *)

(** What the program asks of Python's [random] module.  [G] is the state of
    the generator; every call returns the value drawn and the next state. *)
Class RandomSource (G : Type) : Type := {
  (** [random.random()]: the integer [k] of the double [k / 2^53]. *)
  next_random : G -> Z * G;
  (** [random.randint(a, b)]. *)
  next_randint : Z -> Z -> G -> Z * G;
  (** [random.choice(seq)] picks [seq[i]]; this is the draw of [i] for a
      sequence of the given length. *)
  next_index : nat -> G -> nat * G
}.

(** The documented ranges of those three calls. *)
Class RandomSourceLaws (G : Type) {RS : RandomSource G} : Prop := {
  next_random_range :
    forall g, (0 <= fst (next_random g) < PyNum.two53)%Z;
  next_randint_range :
    forall a b g, (a <= b)%Z -> (a <= fst (next_randint a b g) <= b)%Z;
  next_index_range :
    forall n g, (0 < n)%nat -> (fst (next_index n g) < n)%nat
}.

Arguments RandomSourceLaws G {RS}.

(** A calendar date, as its proleptic Gregorian ordinal ([date.toordinal]).
    [strftime("%m/%d/%Y")] renders it; the table keeps the date itself. *)
Definition date := Z.

(** [d + timedelta(days=n)]. *)
Definition add_days (d : date) (n : Z) : date := (d + n)%Z.

Section World.

Context {G : Type} {RS : RandomSource G}.

(** [wall_clock i] is the date shown by the clock at the [i]-th call of
    [datetime.now()] made by the process. *)
Variable wall_clock : nat -> date.

Record World : Type := mkWorld {
  rng : G;
  clock_reads : nat
}.

Definition M (A : Type) : Type := World -> A * World.

Definition ret {A} (a : A) : M A := fun w => (a, w).

Definition bind {A B} (m : M A) (f : A -> M B) : M B :=
  fun w => let (a, w') := m w in f a w'.

(** Sequencing after a call that may raise: the exception ends the run. *)
Definition bind_returned {A B} (m : M (Raised A)) (f : A -> M (Raised B))
  : M (Raised B) :=
  fun w => let (r, w') := m w in
           match r with
           | Returned a => f a w'
           | ValueError message => (ValueError message, w')
           end.

Definition lift_rng {A} (f : G -> A * G) : M A :=
  fun w => let (a, g') := f (rng w) in (a, mkWorld g' (clock_reads w)).

Definition random : M Z := lift_rng next_random.

Definition randint (a b : Z) : M Z := lift_rng (next_randint a b).

(** [random.choice(seq)]; [d] fills the type for an empty [seq], on which
    Python raises and which the program never passes. *)
Definition choice {A} (d : A) (seq : list A) : M A :=
  lift_rng (fun g => let (i, g') := next_index (List.length seq) g in
                     (nth i seq d, g')).

(** [datetime.now().date()]. *)
Definition today_date : M date :=
  fun w => (wall_clock (clock_reads w), mkWorld (rng w) (S (clock_reads w))).

End World.

Declare Scope gen_scope.
Delimit Scope gen_scope with gen.
Notation "x <- m ;; k" := (bind m (fun x => k))
  (at level 61, m at next level, right associativity) : gen_scope.
Notation "' pat <- m ;; k" := (bind m (fun x => match x with pat => k end))
  (at level 61, pat pattern, m at next level, right associativity) : gen_scope.
Notation "x <-? m ;; k" := (bind_returned m (fun x => k))
  (at level 61, m at next level, right associativity) : gen_scope.
Notation "' pat <-? m ;; k" :=
  (bind_returned m (fun x => match x with pat => k end))
  (at level 61, pat pattern, m at next level, right associativity) : gen_scope.

(* ================================================================== *)
(** * The tables *)
(* ================================================================== *)

(** The dict returned by [_make_customer_fields]. *)
Record CustomerFields : Type := mkCustomerFields {
  Demand_unit : Z;
  Product_Type : string;
  Temp_Min : Z;
  Temp_Max : Z;
  Ripeness_Date : date;
  Expiration_Date : date;
  Packaging_Type : string;
  Contamination_Group : string;
  Handling_Notes : string;
  (** in hundredths, see [PyNum.round2_hundredths] *)
  Urgency_Score : Z;
  Time_Window_Start : string;
  Time_Window_End : string
}.

(** One row of the locations table. *)
Record LocationRow : Type := mkLocationRow {
  Location_ID : string;
  Latitude : R;
  Longitude : R;
  Depot_Flag : string;
  customer : CustomerFields
}.

(** One row of the vehicles table.  Its keys ["Temp_Min"] and ["Temp_Max"]
    are the fields [Vehicle_Temp_Min] and [Vehicle_Temp_Max]. *)
Record VehicleRow : Type := mkVehicleRow {
  Vehicle_ID : string;
  Capacity_boxes : Z;
  Vehicle_Temp_Min : Z;
  Vehicle_Temp_Max : Z;
  Start_Location : string;
  Available_From : string;
  Available_Until : string
}.

(* ================================================================== *)
(** * The generators *)
(* ================================================================== *)

Section Generator.

Context {G : Type} {RS : RandomSource G}.
Variable wall_clock : nat -> date.

(** Whether the call of [math.asin] on line 40 raises.  In exact arithmetic
    its argument stays in [[-1, 1]]; on binary64, rounding can take it past
    1, and the call then raises [ValueError].  The reading on real numbers
    cannot tell, so the answer is a parameter, given what lines 33-43
    compute that argument from: [lat_center], [math.cos(ang_rad)], [u] and
    [bearing].  Both draws are made before the call. *)
Variable asin_domain_error : R -> R -> R -> R -> bool.

Local Open Scope gen_scope.
Local Open Scope string_scope.
Local Open Scope Z_scope.

(** [DEPOT_PROBABILITY = 0.10], a double. *)
Definition DEPOT_PROBABILITY : Z * Z := PyNum.lit_0_10.

Definition PRODUCT_TYPES : list string :=
  ["Leafy"; "Dairy"; "Herbs"; "Meat"; "Fruit"].
Definition PACKAGING_TYPES : list string := ["Crate"; "Box"; "Pallet"].
Definition CONTAMINATION_GROUPS : list string := ["A"; "B"; "C"].
Definition HANDLING_NOTES : list string := ["Fragile"; "Keep Upright"; "None"].

Definition MIN_CAPACITY : Z := 100.
Definition MAX_CAPACITY : Z := 500.
Definition HOURS_IN_DAY : Z := 24.

Definition _random_point_within_radius
    (lat_center lon_center radius_miles : R) : M (G := G) (Raised (R * R)) :=
  k_u <- random ;;
  let u := Geo.unit_float k_u in
  k_b <- random ;;
  let bearing := Geo.uniform_of 0 (2 * PI) k_b in
  if asin_domain_error lat_center
       (cos (radius_miles / Geo.R_EARTH_MILES)) u bearing
  then ret (ValueError "math domain error")
  else ret (Returned
              (Geo.point_of_draws lat_center lon_center radius_miles
                 u bearing)).

Definition _make_customer_fields : M (G := G) CustomerFields :=
  ptype <- choice "" PRODUCT_TYPES ;;
  let '(tmin, tmax) :=
    if (ptype =? "Leafy")%string then (1, 7)
    else if (ptype =? "Dairy")%string then (0, 4)
    else if (ptype =? "Herbs")%string then (5, 10)
    else if (ptype =? "Meat")%string then (-2, 0)
    else (4, 8) in
  demand <- randint 1 25 ;;
  today <- today_date wall_clock ;;
  ripeness_offset <- randint 0 3 ;;
  let ripeness_date := add_days today ripeness_offset in
  exp_offset <- randint 2 7 ;;
  let exp_date := add_days ripeness_date exp_offset in
  packaging <- choice "" PACKAGING_TYPES ;;
  contam_grp <- choice "" CONTAMINATION_GROUPS ;;
  handling <- choice "" HANDLING_NOTES ;;
  k <- random ;;
  let urgency := PyNum.round2_hundredths k in
  tw_choice <- choice "" ["morning"; "afternoon"; "evening"] ;;
  let '(tw_start, tw_end) :=
    if (tw_choice =? "morning")%string then ("08:00", "12:00")
    else if (tw_choice =? "afternoon")%string then ("12:00", "17:00")
    else ("17:00", "20:00") in
  ret {| Demand_unit := demand;
         Product_Type := ptype;
         Temp_Min := tmin;
         Temp_Max := tmax;
         Ripeness_Date := ripeness_date;
         Expiration_Date := exp_date;
         Packaging_Type := packaging;
         Contamination_Group := contam_grp;
         Handling_Notes := handling;
         Urgency_Score := urgency;
         Time_Window_Start := tw_start;
         Time_Window_End := tw_end |}.

(** The draw of line 86 when [_make_customer_fields] is entered in the
    world [w]: the seven draws of lines 63-85 come first, in this order. *)
Definition rng_before_urgency (g : G) : G :=
  let g1 := snd (next_index (List.length PRODUCT_TYPES) g) in
  let g2 := snd (next_randint 1 25 g1) in
  let g3 := snd (next_randint 0 3 g2) in
  let g4 := snd (next_randint 2 7 g3) in
  let g5 := snd (next_index (List.length PACKAGING_TYPES) g4) in
  let g6 := snd (next_index (List.length CONTAMINATION_GROUPS) g5) in
  snd (next_index (List.length HANDLING_NOTES) g6).

Definition urgency_random (w : World (G := G)) : Z :=
  fst (next_random (rng_before_urgency (rng w))).

(** One pass of the loop of [generate_synthetic_locations] (lines 141-152). *)
Definition location_row (lat_center lon_center radius_miles : R) (i : nat)
  : M (G := G) (Raised LocationRow) :=
  let loc_id := "L" ++ PyNum.format_0d 3 (Z.of_nat i) in
  '(lat_rand, lon_rand) <-?
     _random_point_within_radius lat_center lon_center radius_miles ;;
  k <- random ;;
  let is_depot :=
    PyNum.float_lt (PyNum.float_of_random k) DEPOT_PROBABILITY in
  customer_data <- _make_customer_fields ;;
  ret (Returned
         {| Location_ID := loc_id;
            Latitude := Geo.round6 lat_rand;
            Longitude := Geo.round6 lon_rand;
            Depot_Flag := if is_depot then "TRUE" else "FALSE";
            customer := customer_data |}).

(** [for i in ...: rows.append(body(i))], for a body that may raise: the
    first exception ends the loop and no list is returned. *)
Fixpoint for_each_raising {A} (body : nat -> M (G := G) (Raised A))
    (indices : list nat) : M (G := G) (Raised (list A)) :=
  match indices with
  | [] => ret (Returned [])
  | i :: rest =>
      row <-? body i ;;
      rows <-? for_each_raising body rest ;;
      ret (Returned (row :: rows))
  end.

(** [for i in ...: rows.append(body(i))]. *)
Fixpoint for_each {A} (body : nat -> M (G := G) A) (indices : list nat)
  : M (G := G) (list A) :=
  match indices with
  | [] => ret []
  | i :: rest =>
      row <- body i ;;
      rows <- for_each body rest ;;
      ret (row :: rows)
  end.

(** [range(lo, hi)] for [lo >= 0]. *)
Definition range (lo hi : Z) : list nat :=
  seq (Z.to_nat lo) (Z.to_nat (hi - lo)).

Definition generate_synthetic_locations
    (num_records : Z) (lat_center lon_center radius_miles : R)
  : M (G := G) (Raised (list LocationRow)) :=
  depot_fields <- _make_customer_fields ;;
  let first :=
    {| Location_ID := "L001";
       Latitude := Geo.round6 lat_center;
       Longitude := Geo.round6 lon_center;
       Depot_Flag := "TRUE";
       customer := depot_fields |} in
  rest <-? for_each_raising (location_row lat_center lon_center radius_miles)
                            (range 2 (num_records + 1)) ;;
  ret (Returned (first :: rest)).

(** One pass of the loop of [generate_synthetic_vehicles] (lines 182-203). *)
Definition vehicle_row (depot_ids : list string) (i : nat)
  : M (G := G) VehicleRow :=
  let vid := "V" ++ PyNum.format_0d 3 (Z.of_nat i) in
  cap <- randint MIN_CAPACITY MAX_CAPACITY ;;
  '(tmin, tmax) <- choice (0, 0) [(-2, 10); (0, 8); (-5, 4)] ;;
  start_hour <- randint 0 (HOURS_IN_DAY - 1) ;;
  end_hour <- randint start_hour (HOURS_IN_DAY - 1) ;;
  let available_from := PyNum.format_0d 2 start_hour ++ ":00" in
  let available_until := PyNum.format_0d 2 end_hour ++ ":00" in
  start_loc <- choice "" depot_ids ;;
  ret {| Vehicle_ID := vid;
         Capacity_boxes := cap;
         Vehicle_Temp_Min := tmin;
         Vehicle_Temp_Max := tmax;
         Start_Location := start_loc;
         Available_From := available_from;
         Available_Until := available_until |}.

(** Lines 171-174. *)
Definition fleet_size (total_locations : nat) : Z :=
  let num_vehicles :=
    PyNum.ceil (PyNum.float_mul PyNum.lit_0_30
                  (PyNum.float_of_int (Z.of_nat total_locations))) in
  if num_vehicles <? 1 then 1 else num_vehicles.

(** Line 176: the [Location_ID]s of the rows whose flag is ["TRUE"]. *)
Definition depot_ids_of (all_locations_df : list LocationRow) : list string :=
  map Location_ID
      (filter (fun row => (Depot_Flag row =? "TRUE")%string) all_locations_df).

Definition generate_synthetic_vehicles (all_locations_df : list LocationRow)
  : M (G := G) (Raised (list VehicleRow)) :=
  let total_locations := List.length all_locations_df in
  let num_vehicles := fleet_size total_locations in
  let depot_ids := depot_ids_of all_locations_df in
  match depot_ids with
  | [] =>
      ret (ValueError
             "No depot found in locations data; cannot generate vehicles.")
  | _ :: _ =>
      rows <- for_each (vehicle_row depot_ids) (range 1 (num_vehicles + 1)) ;;
      ret (Returned rows)
  end.

(** The two tables [main] writes, in the order it builds them.  An
    exception of the location builder ends the run before anything is
    written; the vehicle builder runs after the locations are written. *)
Definition generate_tables
    (num_records : Z) (lat lon radius : R)
  : M (G := G) (Raised (list LocationRow * Raised (list VehicleRow))) :=
  df_loc <-? generate_synthetic_locations num_records lat lon radius ;;
  df_veh <- generate_synthetic_vehicles df_loc ;;
  ret (Returned (df_loc, df_veh)).

End Generator.

(* ================================================================== *)
(** * Well-formed rows *)
(* ================================================================== *)

Section WellFormed.

Local Open Scope Z_scope.

(** What [_make_customer_fields] puts in a bundle. *)
Definition bundle_ok (f : CustomerFields) : Prop :=
  In (Product_Type f, Temp_Min f, Temp_Max f)
     [("Leafy"%string, 1, 7); ("Dairy"%string, 0, 4); ("Herbs"%string, 5, 10);
      ("Meat"%string, -2, 0); ("Fruit"%string, 4, 8)]
  /\ 1 <= Demand_unit f <= 25
  /\ In (Packaging_Type f) PACKAGING_TYPES
  /\ In (Contamination_Group f) CONTAMINATION_GROUPS
  /\ In (Handling_Notes f) HANDLING_NOTES
  /\ In (Time_Window_Start f, Time_Window_End f)
        [("08:00"%string, "12:00"%string); ("12:00"%string, "17:00"%string);
         ("17:00"%string, "20:00"%string)].

(** What a pass of the vehicle loop puts in a row. *)
Definition vehicle_ok (v : VehicleRow) : Prop :=
  MIN_CAPACITY <= Capacity_boxes v <= MAX_CAPACITY
  /\ In (Vehicle_Temp_Min v, Vehicle_Temp_Max v) [(-2, 10); (0, 8); (-5, 4)]
  /\ exists start_hour end_hour : Z,
       0 <= start_hour <= end_hour /\ end_hour <= HOURS_IN_DAY - 1
       /\ Available_From v = (PyNum.format_0d 2 start_hour ++ ":00")%string
       /\ Available_Until v = (PyNum.format_0d 2 end_hour ++ ":00")%string.

End WellFormed.

(* ================================================================== *)
(** * A random source that can be run *)
(* ================================================================== *)

(** The state is the list of raw 53-bit words still to be served; an
    exhausted list serves zeros.  It stands in for the Mersenne Twister of
    [random]: the properties below use the ranges of the draws only, and
    this source lets the model be run on chosen draws. *)
Module Script.

Open Scope Z_scope.

Definition raw (g : list Z) : Z * list Z :=
  match g with
  | [] => (0, [])
  | x :: g' => (x mod PyNum.two53, g')
  end.

Definition script_random (g : list Z) : Z * list Z := raw g.

Definition script_randint (a b : Z) (g : list Z) : Z * list Z :=
  let (x, g') := raw g in (a + x mod (b - a + 1), g').

Definition script_index (n : nat) (g : list Z) : nat * list Z :=
  let (x, g') := raw g in (Z.to_nat (x mod Z.of_nat n), g').

#[global] Instance source : RandomSource (list Z) := {
  next_random := script_random;
  next_randint := script_randint;
  next_index := script_index
}.

End Script.

(* ================================================================== *)
(** * A concrete run *)
(* ================================================================== *)

(** The answer of exact arithmetic: [math.asin] never raises.  And the
    answer that makes the first call raise. *)
Definition never_raises : R -> R -> R -> R -> bool := fun _ _ _ _ => false.

(** A clock that shows the same day at every reading, and one that shows
    the next day. *)
Definition demo_clock : nat -> date := fun _ => 738886%Z.
Definition demo_clock_next_day : nat -> date := fun _ => 738887%Z.

(** A world whose eighth draw, the one [_make_customer_fields] rounds into
    the urgency score, is the largest value of [random.random()]. *)
Definition demo_world : World (G := list Z) :=
  mkWorld [3; 1; 4; 1; 5; 9; 2; 9007199254740991; 5; 3; 5; 8; 9; 7; 9]%Z 0.

(** The bundle [_make_customer_fields] builds in [demo_world]. *)
Definition demo_fields : CustomerFields :=
  {| Demand_unit := 2%Z;
     Product_Type := "Meat";
     Temp_Min := (-2)%Z;
     Temp_Max := 0%Z;
     Ripeness_Date := 738886%Z;
     Expiration_Date := 738889%Z;
     Packaging_Type := "Pallet";
     Contamination_Group := "A";
     Handling_Notes := "None";
     Urgency_Score := 100%Z;
     Time_Window_Start := "17:00";
     Time_Window_End := "20:00" |}.

Definition demo_depot : LocationRow :=
  {| Location_ID := "L001";
     Latitude := Geo.round6 0;
     Longitude := Geo.round6 0;
     Depot_Flag := "TRUE";
     customer := demo_fields |}.

(** A one-row locations table and the vehicle built from it. *)
Definition demo_table : list LocationRow := [demo_depot].

Definition demo_vehicle : VehicleRow :=
  {| Vehicle_ID := "V001";
     Capacity_boxes := 103%Z;
     Vehicle_Temp_Min := 0%Z;
     Vehicle_Temp_Max := 8%Z;
     Start_Location := "L001";
     Available_From := "04:00";
     Available_Until := "05:00" |}.

(** A clock on which midnight passes right after the first reading. *)
Definition demo_clock_midnight : nat -> date :=
  fun i => match i with O => 738886%Z | S _ => 738887%Z end.

(** A draw of [random.random()] that [round(_, 2)] sends to [h / 100]. *)
Definition urgency_draw (h : Z) : Z :=
  if (h =? 100)%Z then (PyNum.two53 - 1)%Z else (h * PyNum.two53 / 100 + 1)%Z.

(** A world in which that draw is the one rounded into the urgency score. *)
Definition urgency_world (h : Z) : World (G := list Z) :=
  mkWorld [0; 0; 0; 0; 0; 0; 0; urgency_draw h]%Z 0.

(* ================================================================== *)
(** * Rounding lemmas *)
(* ================================================================== *)

Module PyNumFacts.

Import PyNum.
Open Scope Z_scope.

(** The rounded quotient is within half a unit of the exact one. *)
Lemma round_half_even_div_near (a b : Z) :
  0 < b ->
  2 * round_half_even_div a b * b - b <= 2 * a
  /\ 2 * a <= 2 * round_half_even_div a b * b + b.
Proof.
  intros Hb. unfold round_half_even_div.
  pose proof (Z.div_mod a b ltac:(lia)) as Hdm.
  pose proof (Z.mod_pos_bound a b Hb) as Hr.
  destruct (Z.ltb_spec (2 * (a mod b)) b);
    [ | destruct (Z.ltb_spec b (2 * (a mod b)));
        [ | destruct (Z.even (a / b)) ] ]; nia.
Qed.

(** Rounding never crosses a multiple of the denominator. *)
Lemma round_half_even_div_le_grid (a b g : Z) :
  0 < b -> a <= g * b -> round_half_even_div a b <= g.
Proof.
  intros Hb Hag. unfold round_half_even_div.
  pose proof (Z.div_mod a b ltac:(lia)) as Hdm.
  pose proof (Z.mod_pos_bound a b Hb) as Hr.
  assert (Hq : a / b <= g) by nia.
  assert (Hq' : a / b = g -> a mod b = 0) by nia.
  destruct (Z.ltb_spec (2 * (a mod b)) b); [lia | ].
  assert (a / b < g) by (destruct (Z.eq_dec (a / b) g); [ | lia];
                         specialize (Hq' ltac:(assumption)); lia).
  destruct (Z.ltb_spec b (2 * (a mod b))); [lia | ].
  destruct (Z.even (a / b)); lia.
Qed.

Lemma round_half_even_div_ge_grid (a b g : Z) :
  0 < b -> g * b <= a -> g <= round_half_even_div a b.
Proof.
  intros Hb Hag. unfold round_half_even_div.
  pose proof (Z.div_mod a b ltac:(lia)) as Hdm.
  pose proof (Z.mod_pos_bound a b Hb) as Hr.
  assert (Hq : g <= a / b) by nia.
  destruct (Z.ltb_spec (2 * (a mod b)) b); [lia | ].
  destruct (Z.ltb_spec b (2 * (a mod b))); [lia | ].
  destruct (Z.even (a / b)); lia.
Qed.

(** The dyadic model computes what the machine computes. *)
Lemma literals_are_the_doubles :
  PyNum64.pair_of PyNum64.lit_0_30 = lit_0_30
  /\ PyNum64.pair_of PyNum64.lit_0_10 = lit_0_10.
Proof. split; reflexivity. Qed.

Lemma float_mul_agrees_with_binary64 :
  forallb (fun n => PyNum64.same_value
                      (PyNum64.product_0_30 n)
                      (float_mul lit_0_30 (float_of_int n)))
          PyNum64.sample_counts = true.
Proof. vm_compute. reflexivity. Qed.

(** An [int] below [2^53] converts to [float] without rounding. *)
Lemma float_of_int_exact (n : Z) :
  0 <= n < 2 ^ 53 -> float_of_int n = (n, 0).
Proof.
  intros Hn. unfold float_of_int, round53.
  destruct (Z.eq_dec n 0) as [-> | Hn0]; [reflexivity | ].
  assert (Z.log2 n < 53) by (apply Z.log2_lt_pow2; lia).
  destruct (Z.leb_spec (Z.log2 n - 52) 0); [reflexivity | lia].
Qed.

(** Ceiling of a quotient of integers, as an integer division. *)
Lemma neg_div_neg_ceiling (m d k : Z) :
  0 < d -> (k - 1) * d < m <= k * d -> - ((- m) / d) = k.
Proof.
  intros Hd Hm.
  assert (Hk : (- m) / d = - k); [ | lia].
  symmetry. apply (Z.div_unique (- m) d (- k) (k * d - m)); lia.
Qed.

(** [math.ceil(0.30 * n)] is the ceiling of [3 n / 10] for every row count
    a table can have. *)
Lemma ceil_product_0_30 (n : Z) :
  1 <= n < 2 ^ 50 ->
  ceil (float_mul lit_0_30 (float_of_int n)) = (3 * n + 9) / 10.
Proof.
  intros Hn.
  rewrite float_of_int_exact by (change (2 ^ 53) with 9007199254740992;
                                 change (2 ^ 50) with 1125899906842624 in Hn;
                                 lia).
  unfold float_mul, lit_0_30. cbn [fst snd].
  set (c := 5404319552844595) in *.
  set (K := (3 * n + 9) / 10).
  assert (HK : 10 * K <= 3 * n + 9 /\ 3 * n <= 10 * K).
  { unfold K. pose proof (Z.div_mod (3 * n + 9) 10 ltac:(lia)).
    pose proof (Z.mod_pos_bound (3 * n + 9) 10 ltac:(lia)). lia. }
  change (2 ^ 50) with 1125899906842624 in Hn.
  assert (Ht : 0 < c * n < 2 ^ 103).
  { change (2 ^ 103) with 10141204801825835211973625643008. unfold c. nia. }
  unfold round53. rewrite Z.add_0_r.
  destruct (Z.leb_spec (Z.log2 (c * n) - 52) 0) as [Hs | Hs].
  - (* the product has at most 53 bits: only n = 1 *)
    assert (Hlt : c * n < 2 ^ 53).
    { pose proof (Z.log2_spec (c * n) ltac:(lia)) as [_ Hup].
      eapply Z.lt_le_trans; [exact Hup | ].
      apply Z.pow_le_mono_r; lia. }
    change (2 ^ 53) with 9007199254740992 in Hlt.
    assert (n = 1) by (unfold c in Hlt; nia). subst n.
    reflexivity.
  - set (s := Z.log2 (c * n) - 52) in *.
    assert (Hs50 : s <= 50).
    { assert (Z.log2 (c * n) < 103) by (apply Z.log2_lt_pow2; lia). lia. }
    unfold ceil.
    destruct (Z.leb_spec 0 (-54 + s)); [lia | ].
    replace (- (-54 + s)) with (54 - s) by lia.
    set (b := 2 ^ s). set (D := 2 ^ (54 - s)).
    assert (HbD : b * D = 18014398509481984).
    { unfold b, D. rewrite <- Z.pow_add_r by lia.
      replace (s + (54 - s)) with 54 by lia. reflexivity. }
    assert (Hb : 0 < b <= 1125899906842624).
    { unfold b. split; [apply Z.pow_pos_nonneg; lia | ].
      change 1125899906842624 with (2 ^ 50).
      apply Z.pow_le_mono_r; lia. }
    assert (HD : 0 < D) by (unfold D; apply Z.pow_pos_nonneg; lia).
    pose proof (round_half_even_div_near (c * n) b ltac:(lia))
      as [_ Hnear].
    assert (Hle : round_half_even_div (c * n) b <= K * D).
    { apply round_half_even_div_le_grid; [lia | ].
      replace (K * D * b) with (K * (b * D)) by ring.
      rewrite HbD. unfold c. lia. }
    apply neg_div_neg_ceiling; [exact HD | ].
    split; [ | exact Hle].
    set (m := round_half_even_div (c * n) b) in *.
    (* (K - 1) * 2^54 < m * b, from the half-unit bound *)
    assert (Hmb : (K - 1) * (b * D) < m * b).
    { rewrite HbD. unfold c in Hnear. nia. }
    replace ((K - 1) * (b * D)) with ((K - 1) * D * b) in Hmb by ring.
    nia.
Qed.

Lemma round2_hundredths_range (k : Z) :
  0 <= k < two53 -> 0 <= round2_hundredths k <= 100.
Proof.
  intros Hk. unfold round2_hundredths.
  assert (0 < two53) by reflexivity.
  split.
  - apply round_half_even_div_ge_grid; lia.
  - apply round_half_even_div_le_grid; lia.
Qed.

End PyNumFacts.

(* ================================================================== *)
(** * Running the generators symbolically *)
(* ================================================================== *)

(** Name the outcome of the next call to the random source, or split on
    the next test. *)
Ltac run_step :=
  match goal with
  | |- context [next_index ?n ?g] =>
      destruct (next_index n g) as [? ?] eqn:?
  | |- context [next_randint ?a ?b ?g] =>
      destruct (next_randint a b g) as [? ?] eqn:?
  | |- context [next_random ?g] =>
      destruct (next_random g) as [? ?] eqn:?
  | |- context [if ?c then _ else _] => destruct c eqn:?
  | |- context [let (_, _) := nth ?i ?l ?d in _] =>
      destruct (nth i l d) as [? ?] eqn:?
  end.

Ltac run_monad :=
  unfold bind, choice, randint, random, lift_rng, today_date, ret;
  cbn [fst snd rng clock_reads];
  repeat (run_step; cbn [fst snd rng clock_reads]).

Section GeneratorFacts.

Context {G : Type} {RS : RandomSource G}.
Variable wall_clock : nat -> date.

Local Open Scope Z_scope.

Lemma for_each_length {A} (body : nat -> M (G := G) A) (indices : list nat) :
  forall w, List.length (fst (for_each body indices w)) = List.length indices.
Proof.
  induction indices as [ | i rest IH]; intros w; [reflexivity | ].
  cbn [for_each]. unfold bind, ret.
  destruct (body i w) as [row w1].
  specialize (IH w1). destruct (for_each body rest w1) as [rows w2].
  cbn [fst List.length] in *. now rewrite IH.
Qed.

Lemma for_each_Forall {A} (P : A -> Prop) (body : nat -> M (G := G) A) :
  (forall i w, P (fst (body i w))) ->
  forall indices w, Forall P (fst (for_each body indices w)).
Proof.
  intros Hbody. induction indices as [ | i rest IH]; intros w.
  - constructor.
  - cbn [for_each]. unfold bind, ret.
    specialize (Hbody i w). destruct (body i w) as [row w1].
    specialize (IH w1). destruct (for_each body rest w1) as [rows w2].
    cbn [fst] in *. now constructor.
Qed.

(** ** Loops that may raise *)

(** A loop that returns has run every pass, and every pass returned. *)
Lemma for_each_raising_cons {A} (body : nat -> M (G := G) (Raised A))
    (i : nat) (rest : list nat) (w : World) (rows : list A) :
  fst (for_each_raising body (i :: rest) w) = Returned rows ->
  exists row rows',
    rows = row :: rows'
    /\ fst (body i w) = Returned row
    /\ fst (for_each_raising body rest (snd (body i w))) = Returned rows'.
Proof.
  cbn [for_each_raising]. unfold bind_returned, ret.
  destruct (body i w) as [[row | message] w1]; [ | discriminate].
  cbn [fst snd].
  destruct (for_each_raising body rest w1) as [[rows' | message] w2];
    [ | discriminate].
  cbn [fst snd]. intros H. injection H as <-. now exists row, rows'.
Qed.


Lemma for_each_raising_Forall {A} (P : A -> Prop)
    (body : nat -> M (G := G) (Raised A)) :
  (forall i w row, fst (body i w) = Returned row -> P row) ->
  forall indices w rows,
    fst (for_each_raising body indices w) = Returned rows -> Forall P rows.
Proof.
  intros Hbody. induction indices as [ | i rest IH]; intros w rows H.
  - cbn in H. injection H as <-. constructor.
  - apply for_each_raising_cons in H as (row & rows' & -> & Hrow & H).
    constructor; [exact (Hbody _ _ _ Hrow) | exact (IH _ _ H)].
Qed.

(** When every pass that returns has read the clock once, the [j]-th row
    is built on the [j]-th reading after the loop is entered. *)
Lemma for_each_raising_nth_clock {A} (Q : nat -> A -> Prop)
    (body : nat -> M (G := G) (Raised A)) :
  (forall i w row, fst (body i w) = Returned row ->
                   clock_reads (snd (body i w)) = S (clock_reads w)) ->
  (forall i w row, fst (body i w) = Returned row -> Q (clock_reads w) row) ->
  forall indices w rows j row,
    fst (for_each_raising body indices w) = Returned rows ->
    nth_error rows j = Some row ->
    Q (clock_reads w + j)%nat row.
Proof.
  intros Hclock Hbody.
  induction indices as [ | i rest IH]; intros w rows j row H Hnth.
  - cbn in H. injection H as <-. destruct j; discriminate Hnth.
  - apply for_each_raising_cons in H as (r & rows' & -> & Hr & H).
    destruct j as [ | j]; cbn [nth_error] in Hnth.
    + injection Hnth as <-. rewrite Nat.add_0_r. exact (Hbody _ _ _ Hr).
    + specialize (IH _ _ j row H Hnth). rewrite (Hclock _ _ _ Hr) in IH.
      now replace (clock_reads w + S j)%nat with (S (clock_reads w) + j)%nat
        by lia.
Qed.

(** Two loops whose bodies agree on every world reached agree, in what
    they return and in whether they raise. *)
Lemma for_each_raising_agree {A} (body1 body2 : nat -> M (G := G) (Raised A))
    (ok : nat -> Prop) :
  (forall i w row, fst (body1 i w) = Returned row ->
                   clock_reads (snd (body1 i w)) = S (clock_reads w)) ->
  (forall i w, ok (clock_reads w) -> body1 i w = body2 i w) ->
  forall indices w,
    (forall j, (j < List.length indices)%nat -> ok (clock_reads w + j)%nat) ->
    for_each_raising body1 indices w = for_each_raising body2 indices w.
Proof.
  intros Hclock Hagree.
  induction indices as [ | i rest IH]; intros w Hok; [reflexivity | ].
  cbn [for_each_raising]. unfold bind_returned, ret.
  rewrite <- (Hagree i w).
  2:{ specialize (Hok 0%nat). rewrite Nat.add_0_r in Hok.
      apply Hok. cbn. lia. }
  pose proof (Hclock i w) as Hc.
  destruct (body1 i w) as [[row | message] w1]; [ | reflexivity].
  specialize (Hc row eq_refl). cbn [snd] in Hc.
  rewrite (IH w1); [reflexivity | ].
  intros j Hj. rewrite Hc.
  replace (S (clock_reads w) + j)%nat with (clock_reads w + S j)%nat by lia.
  apply Hok. cbn. lia.
Qed.

(** A column that every pass fills from its index alone. *)
Lemma for_each_raising_map {A B} (f : A -> B) (g : nat -> B)
    (body : nat -> M (G := G) (Raised A)) :
  (forall i w row, fst (body i w) = Returned row -> f row = g i) ->
  forall indices w rows,
    fst (for_each_raising body indices w) = Returned rows ->
    map f rows = map g indices.
Proof.
  intros Hbody. induction indices as [ | i rest IH]; intros w rows H.
  - cbn in H. now injection H as <-.
  - apply for_each_raising_cons in H as (row & rows' & -> & Hrow & H).
    cbn [map]. now rewrite (Hbody _ _ _ Hrow), (IH _ _ H).
Qed.

(** ** The attribute bundle *)

Lemma make_customer_fields_clock (w : World) :
  clock_reads (snd (_make_customer_fields wall_clock w)) = S (clock_reads w).
Proof.
  unfold _make_customer_fields. run_monad; reflexivity.
Qed.

Lemma make_customer_fields_dates {L : RandomSourceLaws G} (w : World) :
  let today := wall_clock (clock_reads w) in
  let f := fst (_make_customer_fields wall_clock w) in
  0 <= Ripeness_Date f - today <= 3
  /\ 2 <= Expiration_Date f - Ripeness_Date f <= 7.
Proof.
  intros today f. subst today f.
  unfold _make_customer_fields. run_monad;
    cbn [fst Ripeness_Date Expiration_Date]; unfold add_days;
    repeat match goal with
    | E : next_randint ?a ?b ?g = (?x, _) |- _ =>
        let H := fresh "Hrange" in
        assert (H : a <= b) by lia;
        apply (next_randint_range a b g) in H;
        rewrite E in H; cbn [fst] in H; clear E
    end; lia.
Qed.

(** The urgency score is the draw [random.random()] returns on line 86,
    the eighth of the call, rounded. *)
Lemma make_customer_fields_urgency_random (w : World) :
  Urgency_Score (fst (_make_customer_fields wall_clock w))
  = PyNum.round2_hundredths (urgency_random w).
Proof.
  remember (urgency_random w) as k eqn:Hk.
  unfold urgency_random, rng_before_urgency in Hk. cbv zeta in Hk.
  unfold _make_customer_fields. run_monad; cbn [fst Urgency_Score];
    cbn [fst snd] in Hk;
    repeat match goal with
    | E : _ = (_, _) |- _ => rewrite E in Hk; cbn [fst snd] in Hk
    end;
    now subst k.
Qed.

Lemma urgency_random_range {L : RandomSourceLaws G} (w : World) :
  0 <= urgency_random w < PyNum.two53.
Proof. apply next_random_range. Qed.

Lemma make_customer_fields_urgency {L : RandomSourceLaws G} (w : World) :
  0 <= Urgency_Score (fst (_make_customer_fields wall_clock w)) <= 100.
Proof.
  rewrite make_customer_fields_urgency_random.
  apply PyNumFacts.round2_hundredths_range, urgency_random_range.
Qed.

End GeneratorFacts.

Section TableFacts.

Context {G : Type} {RS : RandomSource G}.
Variable wall_clock : nat -> date.
Variable asin_domain_error : R -> R -> R -> R -> bool.

Local Open Scope Z_scope.

(** The sampler draws [u], then the bearing; it raises when [math.asin]
    does, and otherwise returns the point of the two draws. *)
Lemma random_point_within_radius_draws (lat lon radius : R) (w : World) :
  let k_u := fst (next_random (rng w)) in
  let k_b := fst (next_random (snd (next_random (rng w)))) in
  let u := Geo.unit_float k_u in
  let bearing := Geo.uniform_of 0 (2 * PI) k_b in
  _random_point_within_radius asin_domain_error lat lon radius w
  = (if asin_domain_error lat (cos (radius / Geo.R_EARTH_MILES)) u bearing
     then ValueError "math domain error"
     else Returned (Geo.point_of_draws lat lon radius u bearing),
     mkWorld (snd (next_random (snd (next_random (rng w))))) (clock_reads w)).
Proof.
  cbv zeta. unfold _random_point_within_radius, bind, random, lift_rng, ret.
  destruct (next_random (rng w)) as [k_u g1]. cbn [fst snd rng clock_reads].
  destruct (next_random g1) as [k_b g2]. cbn [fst snd].
  now destruct (asin_domain_error _ _ _ _).
Qed.

(** A pass of the location loop that returns a row has made three draws
    and no clock reading, and ended with one call of
    [_make_customer_fields]; the identifier and the flag of the row are
    those of lines 141 and 143-148. *)
Lemma location_row_returned
    (lat lon radius : R) (i : nat) (w : World) (row : LocationRow) :
  fst (location_row wall_clock asin_domain_error lat lon radius i w)
  = Returned row ->
  exists (w1 : World) (k : Z),
    clock_reads w1 = clock_reads w
    /\ customer row = fst (_make_customer_fields wall_clock w1)
    /\ snd (location_row wall_clock asin_domain_error lat lon radius i w)
       = snd (_make_customer_fields wall_clock w1)
    /\ Location_ID row = ("L" ++ PyNum.format_0d 3 (Z.of_nat i))%string
    /\ k = fst (next_random
                  (snd (next_random (snd (next_random (rng w))))))
    /\ Depot_Flag row
       = if 10 * k <? 2 ^ 53 then "TRUE"%string else "FALSE"%string.
Proof.
  unfold location_row, bind_returned.
  rewrite random_point_within_radius_draws. cbv zeta.
  destruct (asin_domain_error _ _ _ _); [discriminate | ].
  destruct (Geo.point_of_draws _ _ _ _ _) as [lat_rand lon_rand].
  unfold bind, random, lift_rng, ret. cbn [fst snd rng clock_reads].
  destruct (next_random (snd (next_random (snd (next_random (rng w))))))
    as [k g3]. cbn [fst snd].
  destruct (_make_customer_fields wall_clock (mkWorld g3 (clock_reads w)))
    as [f w2] eqn:E.
  cbn [fst snd]. intros H. injection H as <-.
  exists (mkWorld g3 (clock_reads w)), k. rewrite E.
  cbn [fst snd clock_reads customer Location_ID Depot_Flag].
  repeat split.
  unfold PyNum.float_lt, PyNum.float_of_random, DEPOT_PROBABILITY,
    PyNum.lit_0_10. cbn [fst snd].
  change (Z.min (-53) (-56)) with (-56).
  change (2 ^ (-53 - -56)) with 8. change (2 ^ (-56 - -56)) with 1.
  change (2 ^ 53) with 9007199254740992.
  destruct (Z.ltb_spec (k * 8) (7205759403792794 * 1));
    destruct (Z.ltb_spec (10 * k) 9007199254740992); try reflexivity; lia.
Qed.

Lemma location_row_clock
    (lat lon radius : R) (i : nat) (w : World) (row : LocationRow) :
  fst (location_row wall_clock asin_domain_error lat lon radius i w)
  = Returned row ->
  clock_reads (snd (location_row wall_clock asin_domain_error
                      lat lon radius i w))
  = S (clock_reads w).
Proof.
  intros H.
  apply location_row_returned in H as (w1 & k & Hc & _ & -> & _).
  rewrite make_customer_fields_clock. now rewrite Hc.
Qed.

Lemma range_length (lo hi : Z) :
  List.length (range lo hi) = Z.to_nat (hi - lo).
Proof. unfold range. apply length_seq. Qed.

(** The table is the fixed depot row followed by the rows of the loop,
    when the loop returns them. *)
Lemma generate_synthetic_locations_unfold
    (num_records : Z) (lat lon radius : R) (w : World) :
  let fw := _make_customer_fields wall_clock w in
  let loop :=
    for_each_raising (location_row wall_clock asin_domain_error lat lon radius)
                     (range 2 (num_records + 1)) (snd fw) in
  generate_synthetic_locations wall_clock asin_domain_error
    num_records lat lon radius w
  = (match fst loop with
     | Returned rest =>
         Returned ({| Location_ID := "L001";
                      Latitude := Geo.round6 lat;
                      Longitude := Geo.round6 lon;
                      Depot_Flag := "TRUE";
                      customer := fst fw |} :: rest)
     | ValueError message => ValueError message
     end, snd loop).
Proof.
  cbv zeta. unfold generate_synthetic_locations, bind, bind_returned, ret.
  destruct (_make_customer_fields wall_clock w) as [f w1]. cbn [fst snd].
  now destruct (for_each_raising _ _ w1) as [[rows | message] w2].
Qed.

(** A returned table, taken apart. *)
Lemma generate_synthetic_locations_returned
    (num_records : Z) (lat lon radius : R) (w : World)
    (rows : list LocationRow) :
  fst (generate_synthetic_locations wall_clock asin_domain_error
         num_records lat lon radius w) = Returned rows ->
  exists rest,
    rows = {| Location_ID := "L001";
              Latitude := Geo.round6 lat;
              Longitude := Geo.round6 lon;
              Depot_Flag := "TRUE";
              customer := fst (_make_customer_fields wall_clock w) |} :: rest
    /\ fst (for_each_raising
              (location_row wall_clock asin_domain_error lat lon radius)
              (range 2 (num_records + 1))
              (snd (_make_customer_fields wall_clock w))) = Returned rest.
Proof.
  rewrite generate_synthetic_locations_unfold. cbv zeta. cbn [fst].
  destruct (fst (for_each_raising _ _ _)) as [rest | message];
    [ | discriminate].
  intros H. injection H as <-. now exists rest.
Qed.

(** ** The vehicle builder *)

Lemma depot_ids_of_spec (df : list LocationRow) (id : string) :
  In id (depot_ids_of df) <->
  exists row, In row df /\ Depot_Flag row = "TRUE"%string
              /\ Location_ID row = id.
Proof.
  unfold depot_ids_of. rewrite in_map_iff. split.
  - intros (row & Hid & Hin). apply filter_In in Hin as [Hin Hflag].
    apply String.eqb_eq in Hflag. now exists row.
  - intros (row & Hin & Hflag & Hid). exists row. split; [exact Hid | ].
    apply filter_In. split; [exact Hin | ]. now apply String.eqb_eq.
Qed.

Lemma depot_ids_of_nil (df : list LocationRow) :
  depot_ids_of df = [] <->
  forall row, In row df -> Depot_Flag row <> "TRUE"%string.
Proof.
  split.
  - intros Hnil row Hin Hflag.
    assert (Hid : In (Location_ID row) (depot_ids_of df))
      by (apply depot_ids_of_spec; now exists row).
    rewrite Hnil in Hid. exact Hid.
  - intros Hnone. destruct (depot_ids_of df) as [ | id ids] eqn:E;
      [reflexivity | ].
    assert (Hid : In id (depot_ids_of df)) by (rewrite E; now left).
    apply depot_ids_of_spec in Hid as (row & Hin & Hflag & _).
    now destruct (Hnone row Hin).
Qed.

Lemma vehicle_row_start {L : RandomSourceLaws G}
    (depot_ids : list string) (i : nat) (w : World) :
  depot_ids <> [] ->
  In (Start_Location (fst (vehicle_row depot_ids i w))) depot_ids.
Proof.
  intros Hne. unfold vehicle_row. run_monad. cbn [Start_Location].
  lazymatch goal with
  | E : next_index (List.length depot_ids) ?g = (?n, _) |- _ =>
      pose proof (next_index_range (List.length depot_ids) g) as Hn;
      rewrite E in Hn; cbn [fst] in Hn
  end.
  apply nth_In. apply Hn. destruct depot_ids; [congruence | cbn; lia].
Qed.

(** What the vehicle builder returns when a depot exists. *)
Lemma generate_synthetic_vehicles_returned
    (df : list LocationRow) (w : World) (rows : list VehicleRow) :
  fst (generate_synthetic_vehicles df w) = Returned rows ->
  depot_ids_of df <> []
  /\ rows = fst (for_each (vehicle_row (depot_ids_of df))
                          (range 1 (fleet_size (List.length df) + 1)) w).
Proof.
  unfold generate_synthetic_vehicles.
  destruct (depot_ids_of df) as [ | id ids] eqn:E.
  - discriminate.
  - unfold bind, ret. destruct (for_each _ _ w) as [vs w1]. cbn [fst].
    intros H. injection H as <-. split; [discriminate | reflexivity].
Qed.

Lemma fleet_size_spec (n : nat) :
  Z.of_nat n < 2 ^ 50 ->
  fleet_size n = Z.max 1 ((3 * Z.of_nat n + 9) / 10).
Proof.
  intros Hn. unfold fleet_size.
  destruct n as [ | n]; [reflexivity | ].
  rewrite PyNumFacts.ceil_product_0_30 by lia.
  assert (1 <= (3 * Z.of_nat (S n) + 9) / 10)
    by (apply Z.div_le_lower_bound; lia).
  destruct (Z.ltb_spec ((3 * Z.of_nat (S n) + 9) / 10) 1); lia.
Qed.

End TableFacts.

(** The scripted source keeps the documented ranges. *)
Lemma script_laws : RandomSourceLaws (list Z).
Proof.
  assert (Hraw : forall g, (0 <= fst (Script.raw g) < PyNum.two53)%Z).
  { intros [ | x g]; cbn [Script.raw fst]; [now split | ].
    apply Z.mod_pos_bound. reflexivity. }
  split.
  - intros g. exact (Hraw g).
  - intros a b g Hab. cbn [next_randint Script.source].
    unfold Script.script_randint.
    destruct (Script.raw g) as [x g']. cbn [fst].
    pose proof (Z.mod_pos_bound x (b - a + 1) ltac:(lia)). lia.
  - intros n g Hn. cbn [next_index Script.source].
    unfold Script.script_index.
    destruct (Script.raw g) as [x g']. cbn [fst].
    pose proof (Z.mod_pos_bound x (Z.of_nat n) ltac:(lia)). lia.
Qed.

(* ================================================================== *)
(** * Properties of the tables *)
(* ================================================================== *)

Section ClockFacts.

Context {G : Type} {RS : RandomSource G}.
Variables clock1 clock2 : nat -> date.
Variable asin_domain_error : R -> R -> R -> R -> bool.

(** The bundle depends on the clock through one reading only. *)
Lemma make_customer_fields_agree (w : World) :
  clock1 (clock_reads w) = clock2 (clock_reads w) ->
  _make_customer_fields clock1 w = _make_customer_fields clock2 w.
Proof.
  intros Hsame. unfold _make_customer_fields. run_monad;
    rewrite Hsame; reflexivity.
Qed.

Lemma location_row_agree (lat lon radius : R) (i : nat) (w : World) :
  clock1 (clock_reads w) = clock2 (clock_reads w) ->
  location_row clock1 asin_domain_error lat lon radius i w
  = location_row clock2 asin_domain_error lat lon radius i w.
Proof.
  intros Hsame.
  unfold location_row, bind_returned.
  rewrite random_point_within_radius_draws. cbv zeta.
  destruct (asin_domain_error _ _ _ _); [reflexivity | ].
  destruct (Geo.point_of_draws _ _ _ _ _) as [lat_rand lon_rand].
  unfold bind, random, lift_rng, ret. cbn [fst snd rng clock_reads].
  destruct (next_random (snd (next_random (snd (next_random (rng w))))))
    as [k g3]. cbn [fst snd].
  rewrite (make_customer_fields_agree (mkWorld g3 (clock_reads w)) Hsame).
  reflexivity.
Qed.

Lemma generate_synthetic_locations_agree
    (num_records : Z) (lat lon radius : R) (w : World) :
  (forall j, (j < Z.to_nat (Z.max 1 num_records))%nat ->
             clock1 (clock_reads w + j)%nat = clock2 (clock_reads w + j)%nat) ->
  generate_synthetic_locations clock1 asin_domain_error
    num_records lat lon radius w
  = generate_synthetic_locations clock2 asin_domain_error
      num_records lat lon radius w.
Proof.
  intros Hsame.
  rewrite !generate_synthetic_locations_unfold. cbv zeta.
  assert (H0 : clock1 (clock_reads w) = clock2 (clock_reads w)).
  { specialize (Hsame 0%nat). rewrite Nat.add_0_r in Hsame.
    apply Hsame. lia. }
  rewrite <- (make_customer_fields_agree w H0).
  rewrite <- (for_each_raising_agree
                (location_row clock1 asin_domain_error lat lon radius)
                (location_row clock2 asin_domain_error lat lon radius)
                (fun c => clock1 c = clock2 c)); [reflexivity | | | ].
  - intros i w' row. apply location_row_clock.
  - intros i w' Hc. now apply location_row_agree.
  - intros j Hj. rewrite range_length in Hj.
    rewrite make_customer_fields_clock.
    replace (S (clock_reads w) + j)%nat with (clock_reads w + S j)%nat by lia.
    apply Hsame. lia.
Qed.

End ClockFacts.

(** ** The vehicle table *)

(** C2.  When the vehicle builder returns a table, the [Start_Location] of
    every vehicle row is the [Location_ID] of a row of the input table whose
    [Depot_Flag] is ["TRUE"]. *)
Theorem vehicle_start_is_depot
    {G : Type} {RS : RandomSource G} (L : RandomSourceLaws G)
    (all_locations_df : list LocationRow) (w : World)
    (vehicles : list VehicleRow) (v : VehicleRow) :
  fst (generate_synthetic_vehicles all_locations_df w) = Returned vehicles ->
  In v vehicles ->
  exists row,
    In row all_locations_df
    /\ Depot_Flag row = "TRUE"%string
    /\ Location_ID row = Start_Location v.
Proof.
  intros Hrun Hv.
  apply generate_synthetic_vehicles_returned in Hrun as [Hne ->].
  apply depot_ids_of_spec.
  pose proof (for_each_Forall
                (fun r => In (Start_Location r) (depot_ids_of all_locations_df))
                (vehicle_row (depot_ids_of all_locations_df))
                (fun i w' => vehicle_row_start _ i w' Hne)
                (range 1 (fleet_size (List.length all_locations_df) + 1)) w)
    as Hall.
  rewrite Forall_forall in Hall. now apply Hall.
Qed.

Lemma vehicle_start_is_depot_witness :
  exists row,
    In row demo_table
    /\ Depot_Flag row = "TRUE"%string
    /\ Location_ID row = "L001"%string.
Proof.
  apply (vehicle_start_is_depot script_laws demo_table demo_world
           [demo_vehicle] demo_vehicle).
  - reflexivity.
  - simpl. auto.
Defined.

(** C3.  When the vehicle builder returns a table for an input of [N] rows,
    the table has [max(1, c)] rows, where [c] is the ceiling of [3 N / 10];
    [N] ranges over the sizes a table can have in memory. *)
Theorem vehicle_count_is_fleet_size
    {G : Type} {RS : RandomSource G}
    (all_locations_df : list LocationRow) (w : World)
    (vehicles : list VehicleRow) :
  let N := Z.of_nat (List.length all_locations_df) in
  fst (generate_synthetic_vehicles all_locations_df w) = Returned vehicles ->
  (N < 2 ^ 50)%Z ->
  exists c : Z,
    (10 * (c - 1) < 3 * N <= 10 * c)%Z
    /\ Z.of_nat (List.length vehicles) = Z.max 1 c.
Proof.
  intros N Hrun HN. exists ((3 * N + 9) / 10)%Z. split.
  - pose proof (Z.div_mod (3 * N + 9) 10 ltac:(lia)).
    pose proof (Z.mod_pos_bound (3 * N + 9) 10 ltac:(lia)). lia.
  - subst N.
    apply generate_synthetic_vehicles_returned in Hrun as [_ ->].
    rewrite for_each_length, range_length.
    rewrite <- (fleet_size_spec (List.length all_locations_df) HN).
    assert (1 <= fleet_size (List.length all_locations_df))%Z
      by (rewrite fleet_size_spec by exact HN; lia).
    lia.
Qed.

Lemma vehicle_count_is_fleet_size_witness :
  exists c : Z,
    (10 * (c - 1) < 3 * 1 <= 10 * c)%Z
    /\ Z.of_nat (List.length [demo_vehicle]) = Z.max 1 c.
Proof.
  apply (vehicle_count_is_fleet_size (RS := Script.source)
           demo_table demo_world [demo_vehicle]).
  - reflexivity.
  - reflexivity.
Defined.

(** The sizes the specification lists: 1, 3, 4 and 10 locations. *)
Example fleet_size_examples :
  map fleet_size [1; 3; 4; 10]%nat = [1; 1; 2; 3]%Z.
Proof. reflexivity. Qed.

(** C5.  The vehicle builder raises exactly when no row of its input has
    [Depot_Flag] ["TRUE"]; it then returns no row and has made no draw. *)
Theorem vehicles_fail_iff_no_depot
    {G : Type} {RS : RandomSource G}
    (all_locations_df : list LocationRow) (w : World) :
  let no_depot :=
    forall row, In row all_locations_df -> Depot_Flag row <> "TRUE"%string in
  ((exists message,
       fst (generate_synthetic_vehicles all_locations_df w)
       = ValueError message)
   <-> no_depot)
  /\ (no_depot ->
      generate_synthetic_vehicles all_locations_df w
      = (ValueError
           "No depot found in locations data; cannot generate vehicles.", w)).
Proof.
  cbv zeta. rewrite <- depot_ids_of_nil.
  unfold generate_synthetic_vehicles.
  destruct (depot_ids_of all_locations_df) as [ | id ids].
  - split; [ | reflexivity].
    split; [reflexivity | ]. intros _. now eexists.
  - unfold bind, ret. destruct (for_each _ _ w) as [rows w1]. cbn [fst].
    split; [ | discriminate].
    split; [ | discriminate]. intros [message H]. discriminate H.
Qed.

(** ** The locations table *)



(** C6.  In every row of a locations table that is returned, the ripeness
    date is the date read from the clock for that row plus an offset of 0
    to 3 days, and the expiration date is the ripeness date plus an offset
    of 2 to 7 days.  The row at position [j] is built on the [j]-th clock
    reading of the call. *)
Theorem location_dates_in_order
    {G : Type} {RS : RandomSource G} (L : RandomSourceLaws G)
    (wall_clock : nat -> date)
    (asin_domain_error : R -> R -> R -> R -> bool)
    (num_records : Z) (lat_center lon_center radius_miles : R) (w : World)
    (rows : list LocationRow) (j : nat) (row : LocationRow) :
  fst (generate_synthetic_locations wall_clock asin_domain_error num_records
         lat_center lon_center radius_miles w) = Returned rows ->
  nth_error rows j = Some row ->
  let today := wall_clock (clock_reads w + j)%nat in
  let ripeness := Ripeness_Date (customer row) in
  let expiration := Expiration_Date (customer row) in
  (exists ripeness_offset : Z,
      (0 <= ripeness_offset <= 3)%Z
      /\ ripeness = add_days today ripeness_offset)
  /\ (exists exp_offset : Z,
         (2 <= exp_offset <= 7)%Z
         /\ expiration = add_days ripeness exp_offset)
  /\ (2 <= expiration - ripeness <= 7)%Z
  /\ (today <= ripeness)%Z.
Proof.
  intros Hrows Hrow. cbv zeta.
  set (Q := fun (c : nat) (f : CustomerFields) =>
              (0 <= Ripeness_Date f - wall_clock c <= 3)%Z
              /\ (2 <= Expiration_Date f - Ripeness_Date f <= 7)%Z).
  assert (HQ : Q (clock_reads w + j)%nat (customer row)).
  { apply generate_synthetic_locations_returned in Hrows as (rest & -> & Hrest).
    destruct j as [ | j]; cbn [nth_error] in Hrow.
    - injection Hrow as <-. cbn [customer]. rewrite Nat.add_0_r.
      apply (make_customer_fields_dates wall_clock w).
    - pose proof (for_each_raising_nth_clock
                    (fun c r => Q c (customer r))
                    (location_row wall_clock asin_domain_error
                       lat_center lon_center radius_miles)) as Hloop.
      specialize (Hloop (location_row_clock wall_clock asin_domain_error
                           lat_center lon_center radius_miles)).
      replace (clock_reads w + S j)%nat
        with (clock_reads (snd (_make_customer_fields wall_clock w)) + j)%nat
        by (rewrite make_customer_fields_clock; lia).
      eapply Hloop; [ | exact Hrest | exact Hrow].
      intros i w' r Hr.
      apply location_row_returned in Hr as (w1 & k & Hc & -> & _).
      rewrite <- Hc. apply (make_customer_fields_dates wall_clock w1). }
  destruct HQ as [Hrip Hexp]. unfold add_days.
  split; [ | split; [ | split]].
  - exists (Ripeness_Date (customer row)
            - wall_clock (clock_reads w + j)%nat)%Z. lia.
  - exists (Expiration_Date (customer row)
            - Ripeness_Date (customer row))%Z. lia.
  - lia.
  - lia.
Qed.

Lemma location_dates_in_order_witness :
  (exists ripeness_offset : Z,
      (0 <= ripeness_offset <= 3)%Z
      /\ 738886%Z = add_days 738886%Z ripeness_offset)
  /\ (exists exp_offset : Z,
         (2 <= exp_offset <= 7)%Z
         /\ 738889%Z = add_days 738886%Z exp_offset)
  /\ (2 <= 738889 - 738886 <= 7)%Z
  /\ (738886 <= 738886)%Z.
Proof.
  apply (location_dates_in_order script_laws demo_clock never_raises
           1 0 0 0 demo_world demo_table 0%nat demo_depot).
  - reflexivity.
  - reflexivity.
Defined.

(** ** Two runs *)

(** C7, as stated, fails: with the same seed and the same inputs, a run on
    the next day builds another locations table. *)
Lemma same_seed_next_day_differs :
  fst (generate_tables demo_clock never_raises 1 0 0 0 demo_world)
  <> fst (generate_tables demo_clock_next_day never_raises 1 0 0 0 demo_world).
Proof.
  intros H.
  apply (f_equal (fun outcome =>
                    match outcome with
                    | Returned tables =>
                        map (fun r => Ripeness_Date (customer r)) (fst tables)
                    | ValueError _ => []
                    end))
    in H.
  lazy in H. discriminate H.
Qed.

(** C7, amended.  Two runs that start from the same state of the random
    source, take the same inputs and read the same dates from the clock
    (one reading per row of the locations table) return the same two tables
    and leave the random source in the same state. *)
Theorem tables_fixed_by_seed_inputs_and_dates
    {G : Type} {RS : RandomSource G} (clock1 clock2 : nat -> date)
    (asin_domain_error : R -> R -> R -> R -> bool)
    (num_records : Z) (lat_center lon_center radius_miles : R) (w : World) :
  (forall j, (j < Z.to_nat (Z.max 1 num_records))%nat ->
             clock1 (clock_reads w + j)%nat = clock2 (clock_reads w + j)%nat) ->
  generate_tables clock1 asin_domain_error
    num_records lat_center lon_center radius_miles w
  = generate_tables clock2 asin_domain_error
      num_records lat_center lon_center radius_miles w.
Proof.
  intros Hsame. unfold generate_tables, bind_returned.
  now rewrite (generate_synthetic_locations_agree clock1 clock2
                 asin_domain_error num_records
                 lat_center lon_center radius_miles w Hsame).
Qed.

Lemma tables_fixed_by_seed_inputs_and_dates_witness :
  generate_tables demo_clock never_raises 1 0 0 0 demo_world
  = generate_tables demo_clock_midnight never_raises 1 0 0 0 demo_world.
Proof.
  apply (tables_fixed_by_seed_inputs_and_dates (RS := Script.source)).
  intros j Hj. destruct j; [reflexivity | simpl in Hj; lia].
Defined.

(** ** The urgency score *)

Lemma urgency_draw_realizes (h : Z) :
  (0 <= h <= 100)%Z ->
  (0 <= urgency_draw h < PyNum.two53)%Z
  /\ PyNum.round2_hundredths (urgency_draw h) = h.
Proof.
  intros Hh.
  assert (Hall :
    forallb (fun x => (0 <=? urgency_draw x)%Z
                      && (urgency_draw x <? PyNum.two53)%Z
                      && (PyNum.round2_hundredths (urgency_draw x) =? x)%Z)
            (map Z.of_nat (seq 0 101)) = true) by (vm_compute; reflexivity).
  rewrite forallb_forall in Hall.
  specialize (Hall h).
  assert (Hin : In h (map Z.of_nat (seq 0 101))).
  { apply in_map_iff. exists (Z.to_nat h). split; [lia | ].
    apply in_seq. lia. }
  apply Hall in Hin.
  apply andb_prop in Hin as [Hin H3]. apply andb_prop in Hin as [H1 H2].
  lia.
Qed.

(** C9, as stated, fails: the largest draw of [random.random()] is rounded
    to 1.00, which is not among 0.00, 0.01, ..., 0.99. *)
Lemma urgency_score_reaches_one :
  let f := fst (_make_customer_fields demo_clock demo_world) in
  Urgency_Score f = 100%Z /\ ~ (0 <= Urgency_Score f <= 99)%Z.
Proof.
  cbv zeta.
  assert (H : Urgency_Score (fst (_make_customer_fields demo_clock demo_world))
              = 100%Z) by reflexivity.
  rewrite H. split; [reflexivity | lia].
Qed.

(** In a scripted world the urgency score is the eighth word served. *)
Lemma scripted_urgency (wall_clock : nat -> date) (h : Z) :
  Urgency_Score (fst (_make_customer_fields wall_clock (urgency_world h)))
  = PyNum.round2_hundredths (urgency_draw h mod PyNum.two53).
Proof. reflexivity. Qed.

(** C9, amended.  The urgency score of a generated bundle is the draw
    that [random.random()] returns on line 86, the eighth draw of the call
    and a double [k / 2^53] of [[0, 1)], rounded to two decimals; and the
    values the generator can give it are exactly 0.00, 0.01, ..., 0.99 and
    1.00 (here in hundredths): every bundle has one of them, and each of
    them is the score of some bundle. *)
Theorem urgency_score_values
    {G : Type} {RS : RandomSource G} (L : RandomSourceLaws G)
    (wall_clock : nat -> date) (w : World) (h : Z) :
  let score := Urgency_Score (fst (_make_customer_fields wall_clock w)) in
  let k := urgency_random w in
  ((0 <= k < PyNum.two53)%Z /\ score = PyNum.round2_hundredths k)
  /\ (0 <= score <= 100)%Z
  /\ ((exists w' : World (G := list Z),
          Urgency_Score (fst (_make_customer_fields wall_clock w')) = h)
      <-> (0 <= h <= 100)%Z).
Proof.
  cbv zeta. split; [ | split].
  - split; [apply urgency_random_range | ].
    apply make_customer_fields_urgency_random.
  - apply (make_customer_fields_urgency wall_clock w).
  - split.
    + intros (w' & <-).
      apply (make_customer_fields_urgency (L := script_laws) wall_clock w').
    + intros Hh. exists (urgency_world h).
      destruct (urgency_draw_realizes h Hh) as [Hk Hr].
      rewrite scripted_urgency, Z.mod_small by exact Hk. exact Hr.
Qed.

Lemma urgency_score_values_witness :
  let score := Urgency_Score (fst (_make_customer_fields demo_clock demo_world)) in
  let k := urgency_random demo_world in
  ((0 <= k < PyNum.two53)%Z /\ score = PyNum.round2_hundredths k)
  /\ (0 <= score <= 100)%Z
  /\ ((exists w' : World (G := list Z),
          Urgency_Score (fst (_make_customer_fields demo_clock w')) = 100%Z)
      <-> (0 <= 100 <= 100)%Z).
Proof.
  apply (urgency_score_values script_laws demo_clock demo_world 100).
Defined.

(* ================================================================== *)
(** * The point sampler in exact arithmetic *)
(* ================================================================== *)

Module GeoFacts.
Import Geo.
Open Scope R_scope.

Lemma degrees_radians (x : R) : degrees (radians x) = x.
Proof. unfold degrees, radians. field. apply PI_neq0. Qed.

Lemma radians_degrees (x : R) : radians (degrees x) = x.
Proof. unfold degrees, radians. field. apply PI_neq0. Qed.

Lemma radians_range (lat : R) :
  -90 <= lat <= 90 -> - (PI / 2) <= radians lat <= PI / 2.
Proof.
  intros H. unfold radians. pose proof PI_RGT_0. split; nra.
Qed.

Lemma R_EARTH_MILES_pos : 0 < R_EARTH_MILES.
Proof. unfold R_EARTH_MILES. lra. Qed.

(** The cosine of [atan2 y x] is [x] over the length of [(x, y)]. *)
Lemma cos_atan2 (y x : R) : cos (atan2 y x) * sqrt (x * x + y * y) = x.
Proof.
  assert (Hscale : x <> 0 ->
            sqrt (x * x + y * y) = Rabs x * sqrt (1 + (y / x)²)).
  { intros Hx. rewrite <- sqrt_Rsqr_abs. rewrite <- sqrt_mult_alt.
    - f_equal. unfold Rsqr. field. exact Hx.
    - apply Rle_0_sqr. }
  assert (Hpos : 0 < sqrt (1 + (y / x)²)).
  { apply sqrt_lt_R0. pose proof (Rle_0_sqr (y / x)). lra. }
  unfold atan2.
  destruct (Rlt_dec 0 x) as [Hx | Hx].
  - rewrite Hscale by lra. rewrite cos_atan, Rabs_right by lra.
    field. lra.
  - destruct (Rlt_dec x 0) as [Hx' | Hx'].
    + rewrite Hscale by lra. rewrite Rabs_left by lra.
      destruct (Rle_dec 0 y).
      * rewrite neg_cos, cos_atan. field. lra.
      * replace (atan (y / x) - PI) with (- (PI - atan (y / x))) by ring.
        rewrite cos_neg. 
        replace (PI - atan (y / x)) with (- atan (y/x) + PI) by ring.
        rewrite neg_cos, cos_neg, cos_atan. field. lra.
    + assert (x = 0) by lra. subst x.
      destruct (Rlt_dec 0 y).
      * rewrite cos_PI2. ring.
      * destruct (Rlt_dec y 0).
        -- rewrite cos_neg, cos_PI2. ring.
        -- assert (y = 0) by lra. subst y.
           replace (0 * 0 + 0 * 0) with 0 by ring. rewrite sqrt_0. ring.
Qed.

(** The polar angle drawn by the sampler lies between 0 and the angular
    radius. *)
Lemma theta_within (ang u : R) :
  0 <= ang -> 0 <= u < 1 ->
  let theta := acos (1 - u * (1 - cos ang)) in
  0 <= theta <= PI /\ theta <= ang /\ cos theta = 1 - u * (1 - cos ang).
Proof.
  intros Hang Hu theta.
  pose proof (COS_bound ang) as [Hlo Hhi].
  assert (Hc : cos ang <= 1 - u * (1 - cos ang) <= 1) by (split; nra).
  assert (Hcos : cos theta = 1 - u * (1 - cos ang))
    by (apply cos_acos; lra).
  pose proof (acos_bound (1 - u * (1 - cos ang))) as Hb. fold theta in Hb.
  split; [exact Hb | ]. split; [ | exact Hcos].
  destruct (Rle_dec ang PI) as [Hle | Hgt]; [ | lra].
  apply cos_decr_0; lra.
Qed.

Section Destination.

Variables lat0 theta bearing : R.
Hypothesis lat0_range : - (PI / 2) <= lat0 <= PI / 2.

(** The destination is a point of the unit sphere. *)
Lemma destination_unit :
  dest_polar lat0 theta bearing * dest_polar lat0 theta bearing
  + dest_meridian lat0 theta bearing * dest_meridian lat0 theta bearing
  + dest_east theta bearing * dest_east theta bearing = 1.
Proof.
  unfold dest_polar, dest_meridian, dest_east.
  pose proof (sin2_cos2 lat0) as H0. pose proof (sin2_cos2 theta) as H1.
  pose proof (sin2_cos2 bearing) as H2. unfold Rsqr in *.
  set (sl := sin lat0) in *. set (cl := cos lat0) in *.
  set (st := sin theta) in *. set (ct := cos theta) in *.
  set (sb := sin bearing) in *. set (cb := cos bearing) in *.
  replace ((sl * ct + cl * st * cb) * (sl * ct + cl * st * cb)
           + (cl * ct - sl * st * cb) * (cl * ct - sl * st * cb)
           + sb * st * (sb * st))
    with ((sl * sl + cl * cl) * (ct * ct)
          + (sl * sl + cl * cl) * (st * st) * (cb * cb)
          + (st * st) * (sb * sb)) by ring.
  rewrite H0.
  replace (1 * (ct * ct) + 1 * (st * st) * (cb * cb) + st * st * (sb * sb))
    with (ct * ct + (st * st) * (sb * sb + cb * cb)) by ring.
  rewrite H2. lra.
Qed.

Lemma destination_sine_range : -1 <= dest_polar lat0 theta bearing <= 1.
Proof.
  pose proof destination_unit. split; nra.
Qed.

(** The law of cosines between the center and the destination point gives
    back [cos theta]. *)
Lemma destination_angle :
  let lat_new :=
    asin (sin lat0 * cos theta + cos lat0 * sin theta * cos bearing) in
  let dlon := atan2 (sin bearing * sin theta * cos lat0)
                    (cos theta - sin lat0 * sin lat_new) in
  sin lat0 * sin lat_new + cos lat0 * cos lat_new * cos dlon = cos theta.
Proof.
  fold (dest_polar lat0 theta bearing).
  set (s := dest_polar lat0 theta bearing).
  set (A := dest_meridian lat0 theta bearing).
  set (B := dest_east theta bearing).
  intros lat_new dlon.
  pose proof destination_sine_range as Hs.
  pose proof destination_unit as Hunit.
  fold s A B in Hs, Hunit.
  assert (Hsin : sin lat_new = s) by (apply sin_asin; exact Hs).
  assert (Hcl : 0 <= cos lat0) by (apply cos_ge_0; lra).
  assert (Hcn : 0 <= cos lat_new).
  { pose proof (asin_bound s). apply cos_ge_0; unfold lat_new; lra. }
  assert (Hcn2 : cos lat_new * cos lat_new = A * A + B * B).
  { pose proof (sin2_cos2 lat_new) as H. unfold Rsqr in H.
    rewrite Hsin in H. lra. }
  assert (Hx : cos theta - sin lat0 * sin lat_new = cos lat0 * A).
  { rewrite Hsin. unfold s, A, dest_polar, dest_meridian.
    pose proof (sin2_cos2 lat0) as H. unfold Rsqr in H.
    replace (cos lat0
             * (cos lat0 * cos theta - sin lat0 * sin theta * cos bearing))
      with ((cos lat0 * cos lat0) * cos theta
            - sin lat0 * (cos lat0 * sin theta * cos bearing)) by ring.
    replace (cos lat0 * cos lat0) with (1 - sin lat0 * sin lat0) by lra.
    ring. }
  assert (Hy : sin bearing * sin theta * cos lat0 = cos lat0 * B)
    by (unfold B, dest_east; ring).
  assert (Hlen : sqrt ((cos lat0 * A) * (cos lat0 * A)
                       + (cos lat0 * B) * (cos lat0 * B))
                 = cos lat0 * cos lat_new).
  { replace ((cos lat0 * A) * (cos lat0 * A) + (cos lat0 * B) * (cos lat0 * B))
      with ((cos lat0 * cos lat_new) * (cos lat0 * cos lat_new)).
    - apply sqrt_square. now apply Rmult_le_pos.
    - replace ((cos lat0 * cos lat_new) * (cos lat0 * cos lat_new))
        with ((cos lat0 * cos lat0) * (cos lat_new * cos lat_new)) by ring.
      rewrite Hcn2. ring. }
  pose proof (cos_atan2 (cos lat0 * B) (cos lat0 * A)) as Hcos.
  rewrite Hlen in Hcos.
  subst dlon. rewrite Hx, Hy.
  replace (cos lat0 * cos lat_new * cos (atan2 (cos lat0 * B) (cos lat0 * A)))
    with (cos (atan2 (cos lat0 * B) (cos lat0 * A))
          * (cos lat0 * cos lat_new)) by ring.
  rewrite Hcos, Hsin. unfold s, A, dest_polar, dest_meridian.
  pose proof (sin2_cos2 lat0) as H. unfold Rsqr in H.
  replace (sin lat0
           * (sin lat0 * cos theta + cos lat0 * sin theta * cos bearing)
           + cos lat0
             * (cos lat0 * cos theta - sin lat0 * sin theta * cos bearing))
    with ((sin lat0 * sin lat0 + cos lat0 * cos lat0) * cos theta) by ring.
  rewrite H. ring.
Qed.

End Destination.

(** The great-circle distance from the center to the sampled point is the
    earth radius times the polar angle drawn. *)
Lemma sampled_point_distance (lat lon radius u bearing : R) :
  -90 <= lat <= 90 -> 0 <= radius -> 0 <= u < 1 ->
  great_circle_miles (lat, lon) (point_of_draws lat lon radius u bearing)
  = R_EARTH_MILES * acos (1 - u * (1 - cos (radius / R_EARTH_MILES))).
Proof.
  intros Hlat Hr Hu.
  pose proof R_EARTH_MILES_pos as HR.
  assert (Hang : 0 <= radius / R_EARTH_MILES)
    by (apply Rmult_le_pos; [lra | left; now apply Rinv_0_lt_compat]).
  destruct (theta_within (radius / R_EARTH_MILES) u Hang Hu)
    as (Htheta & _ & _).
  unfold great_circle_miles, central_angle, point_of_draws.
  cbn [fst snd]. rewrite !radians_degrees.
  f_equal.
  match goal with
  | |- acos (_ + _ * _ * cos ?d) = _ =>
      replace d with
        (atan2 (sin bearing
                * sin (acos (1 - u * (1 - cos (radius / R_EARTH_MILES))))
                * cos (radians lat))
               (cos (acos (1 - u * (1 - cos (radius / R_EARTH_MILES))))
                - sin (radians lat)
                  * sin (asin
                           (sin (radians lat)
                            * cos (acos (1 - u * (1 - cos (radius / R_EARTH_MILES))))
                            + cos (radians lat)
                              * sin (acos (1 - u * (1 - cos (radius / R_EARTH_MILES))))
                              * cos bearing)))) by ring
  end.
  rewrite (destination_angle (radians lat) _ bearing (radians_range lat Hlat)).
  apply acos_cos. exact Htheta.
Qed.
End GeoFacts.

Section SamplerFacts.

Import Geo.
Local Open Scope R_scope.

Lemma unit_float_range (k : Z) :
  (0 <= k < PyNum.two53)%Z -> 0 <= unit_float k < 1.
Proof.
  intros [Hlo Hhi]. unfold unit_float.
  assert (H53 : 0 < IZR PyNum.two53) by (apply IZR_lt; reflexivity).
  apply IZR_le in Hlo. apply IZR_lt in Hhi.
  split.
  - apply Rmult_le_pos; [exact Hlo | left; now apply Rinv_0_lt_compat].
  - apply (Rmult_lt_reg_r (IZR PyNum.two53)); [exact H53 | ].
    unfold Rdiv. rewrite Rmult_assoc, Rinv_l by lra. lra.
Qed.

End SamplerFacts.

(** ** The sampler's contract *)

Local Open Scope R_scope.

(** C1.  For a center of the globe (a latitude between -90 and 90
    degrees), a radius [>= 0] and a draw [u] in [[0, 1)], the point of the
    sampler's formula lies at great-circle distance at most the radius from
    the center, whatever the bearing; and so does every point the sampler
    returns, for the draws of any random source that keeps the range of
    [random.random()].  The distance is that of exact arithmetic; the
    tolerance of the contract is for the rounding of the program. *)
Theorem sampled_point_within_radius
    {G : Type} {RS : RandomSource G} (L : RandomSourceLaws G)
    (asin_domain_error : R -> R -> R -> R -> bool)
    (lat_center lon_center radius_miles u bearing : R) (w : World) :
  (-90 <= lat_center <= 90)%R ->
  (0 <= radius_miles)%R ->
  (0 <= u < 1)%R ->
  (Geo.great_circle_miles (lat_center, lon_center)
     (Geo.point_of_draws lat_center lon_center radius_miles u bearing)
   <= radius_miles)%R
  /\ (forall p : R * R,
        fst (_random_point_within_radius asin_domain_error
               lat_center lon_center radius_miles w) = Returned p ->
        (Geo.great_circle_miles (lat_center, lon_center) p
         <= radius_miles)%R).
Proof.
  intros Hlat Hr Hu.
  assert (Hpure : forall u' b',
             (0 <= u' < 1)%R ->
             (Geo.great_circle_miles (lat_center, lon_center)
                (Geo.point_of_draws lat_center lon_center radius_miles u' b')
              <= radius_miles)%R).
  { intros u' b' Hu'.
    rewrite GeoFacts.sampled_point_distance by assumption.
    pose proof GeoFacts.R_EARTH_MILES_pos as HR.
    assert (Hang : (0 <= radius_miles / Geo.R_EARTH_MILES)%R)
      by (apply Rmult_le_pos; [lra | left; now apply Rinv_0_lt_compat]).
    destruct (GeoFacts.theta_within (radius_miles / Geo.R_EARTH_MILES) u'
                Hang Hu') as (_ & Hle & _).
    replace radius_miles
      with (Geo.R_EARTH_MILES * (radius_miles / Geo.R_EARTH_MILES))%R at 2
      by (field; lra).
    apply Rmult_le_compat_l; lra. }
  split.
  - now apply Hpure.
  - intros p. rewrite random_point_within_radius_draws. cbv zeta. cbn [fst].
    destruct (asin_domain_error _ _ _ _); [discriminate | ].
    intros H. injection H as <-. apply Hpure.
    apply unit_float_range. apply next_random_range.
Qed.

Lemma sampled_point_within_radius_witness :
  (Geo.great_circle_miles (40, -75) (Geo.point_of_draws 40 (-75) 25 (1 / 2) 1)
   <= 25)%R
  /\ (exists p : R * R,
        fst (_random_point_within_radius never_raises 40 (-75) 25 demo_world)
        = Returned p
        /\ (Geo.great_circle_miles (40, -75) p <= 25)%R).
Proof.
  destruct (sampled_point_within_radius script_laws never_raises
              40 (-75) 25 (1 / 2) 1 demo_world) as [Hformula Hrun];
    [lra | lra | lra | ].
  split; [exact Hformula | ].
  eexists. split; [reflexivity | ]. apply Hrun. reflexivity.
Defined.

(** C10.  The sampler does the same for [-r] as for [r], on the same
    draws: the radius is used through [cos (radius / R)] only. *)
Theorem negative_radius_same_point
    {G : Type} {RS : RandomSource G}
    (asin_domain_error : R -> R -> R -> R -> bool)
    (lat_center lon_center r u bearing : R) (w : World) :
  Geo.point_of_draws lat_center lon_center (- r) u bearing
  = Geo.point_of_draws lat_center lon_center r u bearing
  /\ _random_point_within_radius asin_domain_error
       lat_center lon_center (- r) w
     = _random_point_within_radius asin_domain_error
         lat_center lon_center r w.
Proof.
  assert (Hang : (- r / Geo.R_EARTH_MILES)%R = (- (r / Geo.R_EARTH_MILES))%R)
    by (unfold Rdiv; ring).
  assert (Hpure : forall u' b',
             Geo.point_of_draws lat_center lon_center (- r) u' b'
             = Geo.point_of_draws lat_center lon_center r u' b').
  { intros u' b'. unfold Geo.point_of_draws. now rewrite Hang, cos_neg. }
  split; [apply Hpure | ].
  rewrite !random_point_within_radius_draws. cbv zeta.
  now rewrite Hang, cos_neg, Hpure.
Qed.

Local Close Scope R_scope.

(* ================================================================== *)
(** * The point sampler on binary64 *)
(* ================================================================== *)

Module Geo64Facts.

Import Floats Geo64.
Local Open Scope float_scope.
Local Set Warnings "-inexact-float".

(** Rounding treats the two signs alike. *)
Lemma binary_round_aux_negb prec emax (s : bool) m e l :
  SpecFloat.binary_round_aux prec emax (negb s) m e l
  = SFopp (SpecFloat.binary_round_aux prec emax s m e l).
Proof.
  unfold SpecFloat.binary_round_aux.
  destruct (shr_fexp prec emax m e l) as [mrs' e'].
  destruct (shr_fexp prec emax _ e' loc_Exact) as [mrs'' e''].
  destruct (shr_m mrs''); try reflexivity.
  destruct (Z.leb e'' (emax - prec)); reflexivity.
Qed.

Lemma SFdiv_opp_l prec emax (x y : spec_float) :
  SFdiv prec emax (SFopp x) y = SFopp (SFdiv prec emax x y).
Proof.
  destruct x as [sx | sx | | sx mx ex], y as [sy | sy | | sy my ey];
    cbn [SFdiv SFopp]; try reflexivity;
    try (destruct sx, sy; reflexivity).
  destruct (SFdiv_core_binary prec emax (Z.pos mx) ex (Z.pos my) ey)
    as [[mz ez] lz].
  replace (xorb (negb sx) sy) with (negb (xorb sx sy))
    by (destruct sx, sy; reflexivity).
  apply binary_round_aux_negb.
Qed.

(** Division on binary64 commutes with negation of the dividend. *)
Lemma div_opp_l (x y : float) : (- x) / y = - (x / y).
Proof.
  apply Prim2SF_inj.
  rewrite div_spec, !opp_spec, div_spec. apply SFdiv_opp_l.
Qed.

Lemma abs_opp (x : float) : abs (- x) = abs x.
Proof.
  apply Prim2SF_inj. rewrite !abs_spec, opp_spec.
  now destruct (Prim2SF x).
Qed.

Lemma is_nan_opp (x : float) : is_nan (- x) = is_nan x.
Proof.
  unfold is_nan. rewrite !eqb_spec, opp_spec.
  destruct (Prim2SF x) as [s | s | | s m e]; try (destruct s; reflexivity).
  - reflexivity.
  - unfold SFeqb, SFopp, SFcompare. rewrite Z.compare_refl.
    destruct s; cbn; rewrite ?Pos.compare_cont_refl; reflexivity.
Qed.

Lemma is_finite_opp (x : float) : is_finite (- x) = is_finite x.
Proof. unfold is_finite, is_infinity. now rewrite is_nan_opp, abs_opp. Qed.

(** [math] raises on [-x] when it raises on [x], for an even function. *)
Lemma math_1_even (f : float -> float) (x : float) :
  f (- x) = f x -> math_1 f (- x) = math_1 f x.
Proof.
  intros H. unfold math_1. now rewrite H, is_nan_opp, is_finite_opp.
Qed.

Lemma math_1_finite (f : float -> float) (x : float) :
  is_finite (f x) = true -> math_1 f x = Returned (f x).
Proof.
  unfold math_1, is_finite.
  destruct (is_nan (f x)), (is_infinity (f x)); cbn; intros H;
    try discriminate H; reflexivity.
Qed.


Lemma finite_cases (y : float) :
  is_finite y = true ->
  match Prim2SF y with
  | S754_zero _ | S754_finite _ _ _ => True
  | _ => False
  end.
Proof.
  unfold is_finite, is_nan, is_infinity.
  rewrite !eqb_spec, abs_spec.
  destruct (Prim2SF y) as [s | s | | s m e]; try exact (fun _ => I).
  - destruct s; intros H; vm_compute in H; discriminate H.
  - intros H; vm_compute in H; discriminate H.
Qed.

(** [0.0] times a finite double is a zero, and [1.0] minus a zero is
    [1.0]. *)
Lemma zero_mul_finite (y : float) :
  is_finite y = true -> is_zero (0 * y) = true.
Proof.
  intros Hy. apply finite_cases in Hy.
  unfold is_zero. rewrite mul_spec.
  destruct (Prim2SF y) as [s | s | | s m e]; try contradiction; reflexivity.
Qed.

Lemma one_sub_zero (z : float) : is_zero z = true -> 1 - z = 1.
Proof.
  unfold is_zero. intros Hz. apply Prim2SF_inj. rewrite sub_spec.
  destruct (Prim2SF z) as [s | s | | s m e]; try discriminate Hz.
  now destruct s.
Qed.

Lemma mul_opp_opp (x : float) : (- x) * (- x) = x * x.
Proof.
  apply Prim2SF_inj. rewrite !mul_spec, opp_spec.
  destruct (Prim2SF x) as [s | s | | s m e]; cbn [SFopp SFmul];
    try reflexivity; now destruct s.
Qed.


Lemma small_angles_cos_even : cos_even small_angles.
Proof. intros x. cbn [m_cos small_angles]. now rewrite mul_opp_opp. Qed.





(** X17.  On binary64 too the sampler does the same, bit for bit, for
    [-r] as for [r], with any C library whose cosine is even: it returns
    the same point, or raises in both runs. *)
Lemma negative_radius_same_point_on_binary64
    (libm : Libm) (lat_center lon_center r u bearing : float) :
  cos_even libm ->
  point_of_draws libm lat_center lon_center (- r) u bearing
  = point_of_draws libm lat_center lon_center r u bearing.
Proof.
  intros Heven. unfold point_of_draws, polar_angle.
  now rewrite div_opp_l, (math_1_even _ _ (Heven _)).
Qed.

End Geo64Facts.

(* ================================================================== *)
(** * Identifiers and formats *)
(* ================================================================== *)

Module FormatFacts.
Import PyNum.

Lemma int_of_digits_zeros (k : nat) (s : string) :
  int_of_digits (zeros k ++ s) = int_of_digits s.
Proof.
  induction k as [ | k IH]; [reflexivity | ].
  cbn [zeros String.append]. unfold int_of_digits in *.
  cbn [NilEmpty.uint_of_string].
  destruct (NilEmpty.uint_of_string (zeros k ++ s)) as [d | ];
    destruct (NilEmpty.uint_of_string s) as [d' | ];
    cbn in *; unfold Nat.of_uint in *; congruence.
Qed.

Lemma int_of_digits_digits (n : nat) : int_of_digits (digits n) = Some n.
Proof.
  unfold int_of_digits, digits. rewrite NilEmpty.usu. cbn.
  now rewrite Unsigned.of_to.
Qed.

Lemma int_of_format_0d (width n : nat) :
  int_of_digits (format_0d width (Z.of_nat n)) = Some n.
Proof.
  unfold format_0d.
  destruct (Z.ltb_spec (Z.of_nat n) 0); [lia | ].
  unfold zero_pad. rewrite int_of_digits_zeros, Zabs2Nat.id.
  apply int_of_digits_digits.
Qed.
End FormatFacts.

(* ================================================================== *)
(** * More on the two tables *)
(* ================================================================== *)

Section TableExtraFacts.

Context {G : Type} {RS : RandomSource G}.
Variable wall_clock : nat -> date.
Variable asin_domain_error : R -> R -> R -> R -> bool.

Local Open Scope Z_scope.

(** A column of the rows of a loop that depends on the index only. *)
Lemma for_each_map {A B} (f : A -> B) (g : nat -> B)
    (body : nat -> M (G := G) A) :
  (forall i w, f (fst (body i w)) = g i) ->
  forall indices w, map f (fst (for_each body indices w)) = map g indices.
Proof.
  intros Hbody. induction indices as [ | i rest IH]; intros w; [reflexivity | ].
  cbn [for_each]. unfold bind, ret.
  specialize (Hbody i w). destruct (body i w) as [row w1].
  specialize (IH w1). destruct (for_each body rest w1) as [rows w2].
  cbn [fst map] in *. now rewrite Hbody, IH.
Qed.

Lemma make_customer_fields_ok {L : RandomSourceLaws G} (w : World) :
  bundle_ok (fst (_make_customer_fields wall_clock w)).
Proof.
  unfold bundle_ok, _make_customer_fields. run_monad;
    cbn [fst Product_Type Temp_Min Temp_Max Demand_unit Packaging_Type
         Contamination_Group Handling_Notes Time_Window_Start
         Time_Window_End];
    repeat match goal with
    | E : next_randint ?a ?b ?g = (?x, _) |- _ =>
        let H := fresh "Hint" in
        assert (H : a <= b) by lia;
        apply (next_randint_range a b g) in H;
        rewrite E in H; cbn [fst] in H; clear E
    | E : next_index ?n ?g = (?i, _) |- _ =>
        let H := fresh "Hidx" in
        assert (H : (0 < n)%nat) by (cbn; lia);
        apply (next_index_range n g) in H;
        rewrite E in H; cbn [fst] in H; clear E
    end;
    (split;
     [ match goal with
       | H : (?i < List.length PRODUCT_TYPES)%nat |- _ =>
           cbn in H;
           repeat (destruct i as [ | i]; [ | try (exfalso; lia)]);
           cbn in *; try discriminate; tauto
       end
     | split; [lia | repeat split; try (now apply nth_In); cbn; tauto] ]).
Qed.


(** Every bundle of a returned locations table comes from
    [_make_customer_fields]. *)
Lemma locations_customers_Forall (P : CustomerFields -> Prop) :
  (forall w, P (fst (_make_customer_fields wall_clock w))) ->
  forall num_records lat lon radius w rows,
    fst (generate_synthetic_locations wall_clock asin_domain_error
           num_records lat lon radius w) = Returned rows ->
    Forall (fun row => P (customer row)) rows.
Proof.
  intros HP num_records lat lon radius w rows Hrows.
  apply generate_synthetic_locations_returned in Hrows as (rest & -> & Hrest).
  constructor; [apply HP | ].
  apply (for_each_raising_Forall (fun row => P (customer row))
           (location_row wall_clock asin_domain_error lat lon radius))
    in Hrest; [exact Hrest | ].
  intros i w' row Hrow.
  apply location_row_returned in Hrow as (w1 & k & _ & -> & _).
  apply HP.
Qed.

Lemma location_ids (num_records : Z) (lat lon radius : R) (w : World)
    (rows : list LocationRow) :
  fst (generate_synthetic_locations wall_clock asin_domain_error
         num_records lat lon radius w) = Returned rows ->
  map Location_ID rows
  = map (fun i => ("L" ++ PyNum.format_0d 3 (Z.of_nat i))%string)
        (seq 1 (Z.to_nat (Z.max 1 num_records))).
Proof.
  intros Hrows.
  apply generate_synthetic_locations_returned in Hrows as (rest & -> & Hrest).
  cbn [map Location_ID].
  apply (for_each_raising_map Location_ID
           (fun i => ("L" ++ PyNum.format_0d 3 (Z.of_nat i))%string))
    in Hrest.
  - rewrite Hrest. unfold range. change (Z.to_nat 2) with 2%nat.
    replace (Z.to_nat (Z.max 1 num_records))
      with (S (Z.to_nat (num_records + 1 - 2))) by lia.
    reflexivity.
  - intros i w' row Hrow.
    now apply location_row_returned in Hrow as (w1 & k & _ & _ & _ & -> & _).
Qed.

End TableExtraFacts.

Section IdFacts.

Lemma id_index (letter : string) (i : nat) :
  String.length letter = 1%nat ->
  PyNum.index_of_id (letter ++ PyNum.format_0d 3 (Z.of_nat i)) = Some i.
Proof.
  destruct letter as [ | c [ | c' rest]]; try discriminate. intros _.
  cbn [String.append PyNum.index_of_id].
  apply FormatFacts.int_of_format_0d.
Qed.

Lemma ids_NoDup (letter : string) (indices : list nat) :
  String.length letter = 1%nat ->
  NoDup indices ->
  NoDup (map (fun i => (letter ++ PyNum.format_0d 3 (Z.of_nat i))%string)
             indices).
Proof.
  intros Hletter Hnd. apply Injective_map_NoDup; [ | exact Hnd].
  intros i j Hij.
  apply (f_equal PyNum.index_of_id) in Hij.
  rewrite !id_index in Hij by exact Hletter. congruence.
Qed.

End IdFacts.

Lemma format_0d_2_length (h : Z) :
  (0 <= h <= 99)%Z -> String.length (PyNum.format_0d 2 h) = 2%nat.
Proof.
  intros Hh.
  assert (Hall :
    forallb (fun x => (String.length (PyNum.format_0d 2 x) =? 2)%nat)
            (map Z.of_nat (seq 0 100)) = true) by (vm_compute; reflexivity).
  rewrite forallb_forall in Hall.
  apply Nat.eqb_eq, Hall, in_map_iff.
  exists (Z.to_nat h). split; [lia | ]. apply in_seq. lia.
Qed.

Section VehicleExtraFacts.

Context {G : Type} {RS : RandomSource G}.

Local Open Scope Z_scope.

Lemma vehicle_row_id (depot_ids : list string) (i : nat) (w : World) :
  Vehicle_ID (fst (vehicle_row depot_ids i w))
  = ("V" ++ PyNum.format_0d 3 (Z.of_nat i))%string.
Proof.
  unfold vehicle_row. run_monad. reflexivity.
Qed.

Lemma vehicle_row_ok {L : RandomSourceLaws G}
    (depot_ids : list string) (i : nat) (w : World) :
  vehicle_ok (fst (vehicle_row depot_ids i w)).
Proof.
  unfold vehicle_ok, vehicle_row. run_monad.
  cbn [Capacity_boxes Vehicle_Temp_Min Vehicle_Temp_Max Available_From
       Available_Until].
  repeat match goal with
  | E : next_randint ?a ?b ?g = (?x, _) |- _ =>
      let H := fresh "Hint" in
      assert (H : a <= b) by (unfold MIN_CAPACITY, MAX_CAPACITY, HOURS_IN_DAY in *; lia);
      apply (next_randint_range a b g) in H;
      rewrite E in H; cbn [fst] in H; clear E
  end.
  split; [assumption | ]. split.
  - match goal with
    | E : next_index ?n ?g = (?i, _), E' : nth _ _ _ = _ |- _ =>
        rewrite <- E'; apply nth_In;
        pose proof (next_index_range n g ltac:(cbn; lia)) as Hi;
        rewrite E in Hi; exact Hi
    end.
  - do 2 eexists. split; [ | split; [ | split; reflexivity]].
    + unfold HOURS_IN_DAY in *. lia.
    + unfold HOURS_IN_DAY in *. lia.
Qed.

End VehicleExtraFacts.

(** Reading one cell of a column that follows [seq 1 _]. *)
Lemma column_nth {A B} (f : A -> B) (g : nat -> B) (rows : list A) (m j : nat)
    (row : A) :
  map f rows = map g (seq 1 m) ->
  nth_error rows j = Some row ->
  f row = g (S j).
Proof.
  intros Hcol Hrow.
  apply (map_nth_error f) in Hrow. rewrite Hcol in Hrow.
  assert (Hj : (j < m)%nat).
  { assert (nth_error (map g (seq 1 m)) j <> None) by congruence.
    apply nth_error_Some in H. now rewrite length_map, length_seq in H. }
  rewrite nth_error_map, nth_error_seq in Hrow.
  destruct (Nat.ltb_spec j m); [ | lia]. cbn in Hrow. congruence.
Qed.

(** ** The bundle of every location *)

(** X1.  In every row of a locations table that is returned, the
    temperature band is the one the code attaches to the product of that
    row: Leafy 1..7, Dairy 0..4, Herbs 5..10, Meat -2..0, Fruit 4..8. *)
Theorem bundle_temperature_band
    {G : Type} {RS : RandomSource G} (L : RandomSourceLaws G)
    (wall_clock : nat -> date)
    (asin_domain_error : R -> R -> R -> R -> bool)
    (num_records : Z) (lat_center lon_center radius_miles : R) (w : World)
    (rows : list LocationRow) (row : LocationRow) :
  fst (generate_synthetic_locations wall_clock asin_domain_error num_records
         lat_center lon_center radius_miles w) = Returned rows ->
  In row rows ->
  In (Product_Type (customer row),
      Temp_Min (customer row), Temp_Max (customer row))
     [("Leafy"%string, 1, 7); ("Dairy"%string, 0, 4);
      ("Herbs"%string, 5, 10); ("Meat"%string, -2, 0);
      ("Fruit"%string, 4, 8)]%Z.
Proof.
  intros Hrows Hrow.
  pose proof (locations_customers_Forall wall_clock asin_domain_error
                bundle_ok (make_customer_fields_ok wall_clock)
                num_records lat_center lon_center radius_miles w rows Hrows)
    as Hall.
  rewrite Forall_forall in Hall.
  apply (Hall row Hrow).
Qed.

Lemma bundle_temperature_band_witness :
  In ("Meat"%string, (-2)%Z, 0%Z)
     [("Leafy"%string, 1, 7); ("Dairy"%string, 0, 4);
      ("Herbs"%string, 5, 10); ("Meat"%string, -2, 0);
      ("Fruit"%string, 4, 8)]%Z.
Proof.
  apply (bundle_temperature_band script_laws demo_clock never_raises
           1 0 0 0 demo_world demo_table demo_depot).
  - reflexivity.
  - left. reflexivity.
Defined.

(** X2.  In every row of a locations table that is returned, the demand is
    an integer from 1 to 25, and the packaging, the contamination group and
    the handling note are entries of their module-level lists. *)
Theorem bundle_demand_and_categories
    {G : Type} {RS : RandomSource G} (L : RandomSourceLaws G)
    (wall_clock : nat -> date)
    (asin_domain_error : R -> R -> R -> R -> bool)
    (num_records : Z) (lat_center lon_center radius_miles : R) (w : World)
    (rows : list LocationRow) (row : LocationRow) :
  fst (generate_synthetic_locations wall_clock asin_domain_error num_records
         lat_center lon_center radius_miles w) = Returned rows ->
  In row rows ->
  (1 <= Demand_unit (customer row) <= 25)%Z
  /\ In (Packaging_Type (customer row)) PACKAGING_TYPES
  /\ In (Contamination_Group (customer row)) CONTAMINATION_GROUPS
  /\ In (Handling_Notes (customer row)) HANDLING_NOTES.
Proof.
  intros Hrows Hrow.
  pose proof (locations_customers_Forall wall_clock asin_domain_error
                bundle_ok (make_customer_fields_ok wall_clock)
                num_records lat_center lon_center radius_miles w rows Hrows)
    as Hall.
  rewrite Forall_forall in Hall.
  destruct (Hall row Hrow) as (_ & Hd & Hp & Hc & Hh & _). auto.
Qed.

Lemma bundle_demand_and_categories_witness :
  (1 <= 2 <= 25)%Z
  /\ In "Pallet"%string PACKAGING_TYPES
  /\ In "A"%string CONTAMINATION_GROUPS
  /\ In "None"%string HANDLING_NOTES.
Proof.
  apply (bundle_demand_and_categories script_laws demo_clock never_raises
           1 0 0 0 demo_world demo_table demo_depot).
  - reflexivity.
  - left. reflexivity.
Defined.

(** X3.  In every row of a locations table that is returned, the time
    window is one of the three fixed slots 08:00-12:00, 12:00-17:00 and
    17:00-20:00. *)
Theorem bundle_time_window
    {G : Type} {RS : RandomSource G} (L : RandomSourceLaws G)
    (wall_clock : nat -> date)
    (asin_domain_error : R -> R -> R -> R -> bool)
    (num_records : Z) (lat_center lon_center radius_miles : R) (w : World)
    (rows : list LocationRow) (row : LocationRow) :
  fst (generate_synthetic_locations wall_clock asin_domain_error num_records
         lat_center lon_center radius_miles w) = Returned rows ->
  In row rows ->
  In (Time_Window_Start (customer row), Time_Window_End (customer row))
     [("08:00", "12:00"); ("12:00", "17:00"); ("17:00", "20:00")]%string.
Proof.
  intros Hrows Hrow.
  pose proof (locations_customers_Forall wall_clock asin_domain_error
                bundle_ok (make_customer_fields_ok wall_clock)
                num_records lat_center lon_center radius_miles w rows Hrows)
    as Hall.
  rewrite Forall_forall in Hall.
  destruct (Hall row Hrow) as (_ & _ & _ & _ & _ & Ht). exact Ht.
Qed.

Lemma bundle_time_window_witness :
  In ("17:00", "20:00")%string
     [("08:00", "12:00"); ("12:00", "17:00"); ("17:00", "20:00")]%string.
Proof.
  apply (bundle_time_window script_laws demo_clock never_raises
           1 0 0 0 demo_world demo_table demo_depot).
  - reflexivity.
  - left. reflexivity.
Defined.


(** ** Flags and identifiers of the locations table *)

(** X5.  A sampled row is flagged ["TRUE"] exactly when its third draw
    [k / 2^53] is below one tenth, and ["FALSE"] otherwise: comparing with
    the double [0.10] decides as the exact fraction 1/10 would. *)
Theorem depot_flag_is_draw_below_tenth
    {G : Type} {RS : RandomSource G} (wall_clock : nat -> date)
    (asin_domain_error : R -> R -> R -> R -> bool)
    (lat_center lon_center radius_miles : R) (i : nat) (w : World)
    (row : LocationRow) :
  fst (location_row wall_clock asin_domain_error lat_center lon_center
         radius_miles i w) = Returned row ->
  let k := fst (next_random (snd (next_random (snd (next_random (rng w)))))) in
  Depot_Flag row
  = if (10 * k <? 2 ^ 53)%Z then "TRUE"%string else "FALSE"%string.
Proof.
  intros Hrow. cbv zeta.
  now apply location_row_returned
    in Hrow as (w1 & k & _ & _ & _ & _ & -> & ->).
Qed.

Lemma depot_flag_is_draw_below_tenth_witness :
  exists row : LocationRow,
    fst (location_row demo_clock never_raises 40 (-75) 25 2 demo_world)
    = Returned row
    /\ Location_ID row = "L002"%string
    /\ Depot_Flag row = "TRUE"%string.
Proof.
  eexists. split; [reflexivity | ]. split; [reflexivity | ].
  exact (depot_flag_is_draw_below_tenth (RS := Script.source)
           demo_clock never_raises 40 (-75) 25 2 demo_world _ eq_refl).
Defined.

(** X6.  Every row of a locations table that is returned carries one of
    the two tokens ["TRUE"] and ["FALSE"] in [Depot_Flag]. *)
Theorem depot_flag_tokens
    {G : Type} {RS : RandomSource G} (wall_clock : nat -> date)
    (asin_domain_error : R -> R -> R -> R -> bool)
    (num_records : Z) (lat_center lon_center radius_miles : R) (w : World)
    (rows : list LocationRow) (row : LocationRow) :
  fst (generate_synthetic_locations wall_clock asin_domain_error num_records
         lat_center lon_center radius_miles w) = Returned rows ->
  In row rows ->
  Depot_Flag row = "TRUE"%string \/ Depot_Flag row = "FALSE"%string.
Proof.
  intros Hrows.
  apply generate_synthetic_locations_returned in Hrows as (rest & -> & Hrest).
  intros [<- | Hrow]; [now left | ].
  apply (for_each_raising_Forall
           (fun r => Depot_Flag r = "TRUE"%string
                     \/ Depot_Flag r = "FALSE"%string)
           (location_row wall_clock asin_domain_error
              lat_center lon_center radius_miles)) in Hrest.
  - rewrite Forall_forall in Hrest. now apply Hrest.
  - intros i w' r Hr.
    apply location_row_returned in Hr as (w1 & k & _ & _ & _ & _ & _ & ->).
    destruct (_ <? _)%Z; [now left | now right].
Qed.

Lemma depot_flag_tokens_witness :
  "TRUE"%string = "TRUE"%string \/ "TRUE"%string = "FALSE"%string.
Proof.
  apply (depot_flag_tokens (RS := Script.source) demo_clock never_raises
           1 0 0 0 demo_world demo_table demo_depot).
  - reflexivity.
  - left. reflexivity.
Defined.

(** X7.  A locations table that is returned has [max(1, num_records)]
    rows, so one row, the depot, for [num_records <= 1], zero and negative
    counts included.  The row at position [j] carries the identifier of
    index [j + 1], which is read back from it by [int(ident[1:])], and no
    two rows share an identifier. *)
Theorem location_ids_sequential
    {G : Type} {RS : RandomSource G} (wall_clock : nat -> date)
    (asin_domain_error : R -> R -> R -> R -> bool)
    (num_records : Z) (lat_center lon_center radius_miles : R) (w : World)
    (rows : list LocationRow) :
  fst (generate_synthetic_locations wall_clock asin_domain_error num_records
         lat_center lon_center radius_miles w) = Returned rows ->
  List.length rows = Z.to_nat (Z.max 1 num_records)
  /\ (forall j row,
        nth_error rows j = Some row ->
        Location_ID row = ("L" ++ PyNum.format_0d 3 (Z.of_nat (S j)))%string
        /\ PyNum.index_of_id (Location_ID row) = Some (S j))
  /\ NoDup (map Location_ID rows).
Proof.
  intros Hrows.
  pose proof (location_ids wall_clock asin_domain_error num_records
                lat_center lon_center radius_miles w rows Hrows) as Hids.
  split; [ | split].
  - apply (f_equal (@List.length string)) in Hids.
    now rewrite !length_map, length_seq in Hids.
  - intros j row Hrow.
    pose proof (column_nth _ _ _ _ _ _ Hids Hrow) as Hid.
    cbv beta in Hid. split; [exact Hid | ].
    rewrite Hid. now apply id_index.
  - rewrite Hids. apply ids_NoDup; [reflexivity | apply seq_NoDup].
Qed.

Lemma location_ids_sequential_witness :
  exists rows : list LocationRow,
    fst (generate_synthetic_locations demo_clock never_raises
           2 40 (-75) 25 demo_world) = Returned rows
    /\ List.length rows = Z.to_nat (Z.max 1 2)
    /\ (forall j row,
          nth_error rows j = Some row ->
          Location_ID row
          = ("L" ++ PyNum.format_0d 3 (Z.of_nat (S j)))%string
          /\ PyNum.index_of_id (Location_ID row) = Some (S j))
    /\ NoDup (map Location_ID rows).
Proof.
  eexists. split; [reflexivity | ].
  apply (location_ids_sequential (RS := Script.source) demo_clock
           never_raises 2 40 (-75) 25 demo_world).
  reflexivity.
Defined.

Lemma string_length_append (a b : string) :
  String.length (a ++ b) = (String.length a + String.length b)%nat.
Proof.
  induction a as [ | c a IH]; [reflexivity | ]. cbn. now rewrite IH.
Qed.

Section VehicleTableFacts.
Context {G : Type} {RS : RandomSource G}.
Local Open Scope Z_scope.

Lemma fleet_size_pos (n : nat) : 1 <= fleet_size n.
Proof.
  unfold fleet_size.
  destruct (Z.ltb_spec (PyNum.ceil (PyNum.float_mul PyNum.lit_0_30
              (PyNum.float_of_int (Z.of_nat n)))) 1); lia.
Qed.

Lemma vehicle_ids (df : list LocationRow) (w : World)
    (vehicles : list VehicleRow) :
  fst (generate_synthetic_vehicles df w) = Returned vehicles ->
  Z.of_nat (List.length vehicles) = fleet_size (List.length df)
  /\ map Vehicle_ID vehicles
     = map (fun i => ("V" ++ PyNum.format_0d 3 (Z.of_nat i))%string)
           (seq 1 (List.length vehicles)).
Proof.
  intros Hrun.
  apply generate_synthetic_vehicles_returned in Hrun as [_ ->].
  pose proof (fleet_size_pos (List.length df)) as Hpos.
  rewrite for_each_length, range_length.
  split; [lia | ].
  rewrite (for_each_map Vehicle_ID
             (fun i => ("V" ++ PyNum.format_0d 3 (Z.of_nat i))%string))
    by (intros i w'; apply vehicle_row_id).
  unfold range. reflexivity.
Qed.

Lemma vehicles_Forall (P : VehicleRow -> Prop)
    (df : list LocationRow) (w : World) (vehicles : list VehicleRow) :
  (forall i w', P (fst (vehicle_row (depot_ids_of df) i w'))) ->
  fst (generate_synthetic_vehicles df w) = Returned vehicles ->
  Forall P vehicles.
Proof.
  intros HP Hrun.
  apply generate_synthetic_vehicles_returned in Hrun as [_ ->].
  now apply for_each_Forall.
Qed.

End VehicleTableFacts.

(** ** The vehicles table *)

(** X8.  In the vehicles table the row at position [j] carries the
    identifier of index [j + 1], ["V001"] first, which is read back from it
    by [int(ident[1:])]; no two vehicles share an identifier. *)
Theorem vehicle_ids_sequential
    {G : Type} {RS : RandomSource G}
    (all_locations_df : list LocationRow) (w : World)
    (vehicles : list VehicleRow) :
  fst (generate_synthetic_vehicles all_locations_df w) = Returned vehicles ->
  (forall j v,
      nth_error vehicles j = Some v ->
      Vehicle_ID v = ("V" ++ PyNum.format_0d 3 (Z.of_nat (S j)))%string
      /\ PyNum.index_of_id (Vehicle_ID v) = Some (S j))
  /\ NoDup (map Vehicle_ID vehicles).
Proof.
  intros Hrun. destruct (vehicle_ids _ _ _ Hrun) as [_ Hids]. split.
  - intros j v Hv.
    pose proof (column_nth _ _ _ _ _ _ Hids Hv) as Hid.
    cbv beta in Hid. split; [exact Hid | ].
    rewrite Hid. now apply id_index.
  - rewrite Hids. apply ids_NoDup; [reflexivity | apply seq_NoDup].
Qed.

Lemma vehicle_ids_sequential_witness :
  (forall j v,
      nth_error [demo_vehicle] j = Some v ->
      Vehicle_ID v = ("V" ++ PyNum.format_0d 3 (Z.of_nat (S j)))%string
      /\ PyNum.index_of_id (Vehicle_ID v) = Some (S j))
  /\ NoDup (map Vehicle_ID [demo_vehicle]).
Proof.
  apply (vehicle_ids_sequential (RS := Script.source) demo_table demo_world
           [demo_vehicle]).
  reflexivity.
Defined.

(** X9.  Every vehicle has a capacity from [MIN_CAPACITY] = 100 to
    [MAX_CAPACITY] = 500 and one of the three temperature bands (-2, 10),
    (0, 8) and (-5, 4). *)
Theorem vehicle_capacity_and_band
    {G : Type} {RS : RandomSource G} (L : RandomSourceLaws G)
    (all_locations_df : list LocationRow) (w : World)
    (vehicles : list VehicleRow) (v : VehicleRow) :
  fst (generate_synthetic_vehicles all_locations_df w) = Returned vehicles ->
  In v vehicles ->
  (100 <= Capacity_boxes v <= 500)%Z
  /\ In (Vehicle_Temp_Min v, Vehicle_Temp_Max v)
        [(-2, 10); (0, 8); (-5, 4)]%Z.
Proof.
  intros Hrun Hv.
  pose proof (vehicles_Forall vehicle_ok all_locations_df w vehicles
                (fun i w' => vehicle_row_ok (depot_ids_of all_locations_df)
                               i w') Hrun) as Hall.
  rewrite Forall_forall in Hall.
  destruct (Hall v Hv) as (Hcap & Hband & _). split; assumption.
Qed.

Lemma vehicle_capacity_and_band_witness :
  (100 <= 103 <= 500)%Z /\ In (0, 8)%Z [(-2, 10); (0, 8); (-5, 4)]%Z.
Proof.
  apply (vehicle_capacity_and_band script_laws demo_table demo_world
           [demo_vehicle] demo_vehicle).
  - reflexivity.
  - left. reflexivity.
Defined.

(** X10.  Every vehicle is available from an hour [start_hour] until an
    hour [end_hour] with [0 <= start_hour <= end_hour <= 23]; both are
    written as five characters, two digits followed by [":00"]. *)
Theorem vehicle_availability_window
    {G : Type} {RS : RandomSource G} (L : RandomSourceLaws G)
    (all_locations_df : list LocationRow) (w : World)
    (vehicles : list VehicleRow) (v : VehicleRow) :
  fst (generate_synthetic_vehicles all_locations_df w) = Returned vehicles ->
  In v vehicles ->
  exists start_hour end_hour : Z,
    (0 <= start_hour <= end_hour)%Z /\ (end_hour <= 23)%Z
    /\ Available_From v = (PyNum.format_0d 2 start_hour ++ ":00")%string
    /\ Available_Until v = (PyNum.format_0d 2 end_hour ++ ":00")%string
    /\ String.length (Available_From v) = 5%nat
    /\ String.length (Available_Until v) = 5%nat.
Proof.
  intros Hrun Hv.
  pose proof (vehicles_Forall vehicle_ok all_locations_df w vehicles
                (fun i w' => vehicle_row_ok (depot_ids_of all_locations_df)
                               i w') Hrun) as Hall.
  rewrite Forall_forall in Hall.
  destruct (Hall v Hv) as (_ & _ & sh & eh & Hle & Hmax & Hfrom & Huntil).
  unfold HOURS_IN_DAY in Hmax.
  exists sh, eh. repeat split; try assumption; try lia.
  - rewrite Hfrom, string_length_append, format_0d_2_length by lia.
    reflexivity.
  - rewrite Huntil, string_length_append, format_0d_2_length by lia.
    reflexivity.
Qed.

Lemma vehicle_availability_window_witness :
  exists start_hour end_hour : Z,
    (0 <= start_hour <= end_hour)%Z /\ (end_hour <= 23)%Z
    /\ "04:00"%string = (PyNum.format_0d 2 start_hour ++ ":00")%string
    /\ "05:00"%string = (PyNum.format_0d 2 end_hour ++ ":00")%string
    /\ String.length "04:00" = 5%nat
    /\ String.length "05:00" = 5%nat.
Proof.
  apply (vehicle_availability_window script_laws demo_table demo_world
           [demo_vehicle] demo_vehicle).
  - reflexivity.
  - left. reflexivity.
Defined.

(** ** The two builders in sequence *)

Lemma generate_synthetic_vehicles_returns
    {G : Type} {RS : RandomSource G}
    (df : list LocationRow) (w : World) :
  depot_ids_of df <> [] ->
  exists vehicles, fst (generate_synthetic_vehicles df w) = Returned vehicles.
Proof.
  intros Hne. unfold generate_synthetic_vehicles.
  destruct (depot_ids_of df) as [ | id ids]; [congruence | ].
  unfold bind, ret. destruct (for_each _ _ w) as [rows w1].
  now exists rows.
Qed.

(** X11.  Whenever the location builder returns its table, the run
    returns both tables, whatever [num_records] is: run on that table the
    vehicle builder never raises, it returns [fleet_size] rows for the
    [max(1, num_records)] locations, and each vehicle starts at a row of
    the locations table flagged ["TRUE"]. *)
Theorem tables_are_both_built
    {G : Type} {RS : RandomSource G} (L : RandomSourceLaws G)
    (wall_clock : nat -> date)
    (asin_domain_error : R -> R -> R -> R -> bool)
    (num_records : Z) (lat_center lon_center radius_miles : R) (w : World)
    (df_loc : list LocationRow) :
  fst (generate_synthetic_locations wall_clock asin_domain_error num_records
         lat_center lon_center radius_miles w) = Returned df_loc ->
  exists vehicles : list VehicleRow,
    fst (generate_tables wall_clock asin_domain_error num_records
           lat_center lon_center radius_miles w)
    = Returned (df_loc, Returned vehicles)
    /\ Z.of_nat (List.length vehicles)
       = fleet_size (Z.to_nat (Z.max 1 num_records))
    /\ forall v, In v vehicles ->
         exists row,
           In row df_loc
           /\ Depot_Flag row = "TRUE"%string
           /\ Location_ID row = Start_Location v.
Proof.
  intros Hloc.
  pose proof (location_ids wall_clock asin_domain_error num_records
                lat_center lon_center radius_miles w df_loc Hloc) as Hlen.
  apply (f_equal (@List.length string)) in Hlen.
  rewrite !length_map, length_seq in Hlen.
  assert (Hdepot : depot_ids_of df_loc <> []).
  { apply generate_synthetic_locations_returned in Hloc as (rest & -> & _).
    discriminate. }
  unfold generate_tables, bind_returned, bind, ret.
  destruct (generate_synthetic_locations wall_clock asin_domain_error
              num_records lat_center lon_center radius_miles w)
    as [outcome w1].
  cbn [fst] in Hloc. subst outcome.
  destruct (generate_synthetic_vehicles_returns df_loc w1 Hdepot)
    as [vehicles Hrun].
  destruct (vehicle_ids df_loc w1 vehicles Hrun) as [Hcount _].
  pose proof (generate_synthetic_vehicles_returned df_loc w1 vehicles Hrun)
    as [_ Hrows].
  destruct (generate_synthetic_vehicles df_loc w1) as [res w2].
  cbn [fst snd] in *. subst res. exists vehicles.
  split; [reflexivity | ]. split; [now rewrite Hcount, Hlen | ].
  intros v Hv. apply depot_ids_of_spec.
  pose proof (for_each_Forall
                (fun r => In (Start_Location r) (depot_ids_of df_loc))
                (vehicle_row (depot_ids_of df_loc))
                (fun i w' => vehicle_row_start _ i w' Hdepot)
                (range 1 (fleet_size (List.length df_loc) + 1)) w1) as Hall.
  rewrite <- Hrows in Hall. rewrite Forall_forall in Hall. now apply Hall.
Qed.

Lemma tables_are_both_built_witness :
  exists vehicles : list VehicleRow,
    fst (generate_tables demo_clock never_raises 1 0 0 0 demo_world)
    = Returned (demo_table, Returned vehicles)
    /\ Z.of_nat (List.length vehicles) = fleet_size (Z.to_nat (Z.max 1 1))
    /\ forall v, In v vehicles ->
         exists row,
           In row demo_table
           /\ Depot_Flag row = "TRUE"%string
           /\ Location_ID row = Start_Location v.
Proof.
  apply (tables_are_both_built script_laws demo_clock never_raises
           1 0 0 0 demo_world demo_table).
  reflexivity.
Defined.

(** ** When the location builder raises *)

Section RaisingFacts.

Context {G : Type} {RS : RandomSource G}.
Variable wall_clock : nat -> date.
Variable asin_domain_error : R -> R -> R -> R -> bool.





End RaisingFacts.



(* ================================================================== *)
(** * More on the point sampler *)
(* ================================================================== *)

Module GeoExtraFacts.
Import Geo.
Local Open Scope R_scope.

(** [atan2] lands in the half-open turn from [-PI] to [PI]. *)
Lemma atan2_bound (y x : R) : - PI < atan2 y x <= PI.
Proof.
  pose proof PI_RGT_0 as Hpi. unfold atan2.
  destruct (Rlt_dec 0 x) as [Hx | Hx].
  - pose proof (atan_bound (y / x)). lra.
  - destruct (Rlt_dec x 0) as [Hx' | Hx'].
    + pose proof (atan_bound (y / x)) as Hb.
      destruct (Rle_dec 0 y) as [Hy | Hy].
      * assert (Hq : y / x <= 0).
        { unfold Rdiv. pose proof (Rinv_lt_0_compat x Hx'). nra. }
        assert (atan (y / x) <= 0).
        { destruct Hq as [Hq | Hq].
          - left. rewrite <- atan_0. now apply atan_increasing.
          - rewrite Hq, atan_0. lra. }
        lra.
      * assert (Hq : 0 < y / x).
        { unfold Rdiv. pose proof (Rinv_lt_0_compat x Hx'). nra. }
        assert (0 < atan (y / x))
          by (rewrite <- atan_0; now apply atan_increasing).
        lra.
    + destruct (Rlt_dec 0 y); [lra | ].
      destruct (Rlt_dec y 0); lra.
Qed.

Lemma degrees_mono (a b : R) : a <= b -> degrees a <= degrees b.
Proof.
  intros Hab. unfold degrees. pose proof PI_RGT_0 as Hpi.
  apply Rmult_le_compat_r; [ | exact Hab].
  left. apply Rdiv_lt_0_compat; lra.
Qed.

Lemma degrees_lt (a b : R) : a < b -> degrees a < degrees b.
Proof.
  intros Hab. unfold degrees. pose proof PI_RGT_0 as Hpi.
  apply Rmult_lt_compat_r; [ | exact Hab].
  apply Rdiv_lt_0_compat; lra.
Qed.

Lemma degrees_PI : degrees PI = 180.
Proof. unfold degrees. field. apply PI_neq0. Qed.

Lemma degrees_plus (a b : R) : degrees (a + b) = degrees a + degrees b.
Proof. unfold degrees. ring. Qed.

Lemma degrees_opp (a : R) : degrees (- a) = - degrees a.
Proof. unfold degrees. ring. Qed.

Lemma point_of_draws_bounds (lat lon radius u bearing : R) :
  let p := point_of_draws lat lon radius u bearing in
  -90 <= fst p <= 90 /\ -180 < snd p - lon <= 180.
Proof.
  cbv zeta. unfold point_of_draws. cbn [fst snd].
  split.
  - match goal with |- _ <= degrees (asin ?s) <= _ =>
      pose proof (asin_bound s) as [Hlo Hhi] end.
    apply degrees_mono in Hlo, Hhi.
    rewrite degrees_opp in Hlo.
    replace (degrees (PI / 2)) with 90 in *
      by (unfold degrees; field; apply PI_neq0).
    lra.
  - rewrite degrees_plus, GeoFacts.degrees_radians.
    match goal with |- _ < lon + degrees (atan2 ?y ?x) - lon <= _ =>
      pose proof (atan2_bound y x) as [Hlo Hhi] end.
    apply degrees_lt in Hlo. apply degrees_mono in Hhi.
    rewrite degrees_opp in Hlo. rewrite degrees_PI in *. lra.
Qed.

End GeoExtraFacts.

Local Open Scope R_scope.

(** X12.  Whatever the center, the radius and the draws, the latitude the
    sampler returns lies between -90 and 90 degrees and the longitude it
    returns is the center's plus an offset in (-180, 180]: the longitude is
    not brought back into [-180, 180]. *)
Theorem sampled_point_bounds
    {G : Type} {RS : RandomSource G}
    (asin_domain_error : R -> R -> R -> R -> bool)
    (lat_center lon_center radius_miles u bearing : R) (w : World) :
  let p := Geo.point_of_draws lat_center lon_center radius_miles u bearing in
  (-90 <= fst p <= 90 /\ -180 < snd p - lon_center <= 180)
  /\ (forall q : R * R,
        fst (_random_point_within_radius asin_domain_error
               lat_center lon_center radius_miles w) = Returned q ->
        -90 <= fst q <= 90 /\ -180 < snd q - lon_center <= 180).
Proof.
  cbv zeta. split.
  - apply GeoExtraFacts.point_of_draws_bounds.
  - intros q. rewrite random_point_within_radius_draws. cbv zeta. cbn [fst].
    destruct (asin_domain_error _ _ _ _); [discriminate | ].
    intros H. injection H as <-.
    apply GeoExtraFacts.point_of_draws_bounds.
Qed.

(** X16.  No wrap at the antimeridian, in exact arithmetic: from a center
    on the equator, with the bearing due east, a radius below a quarter of
    the circumference and a draw [u > 0], the longitude of the point of the
    formula is above the center's; a center at longitude 180 gets a
    longitude above 180. *)
Theorem east_of_center_no_wrap (lon_center radius_miles u : R) :
  0 < radius_miles < Geo.R_EARTH_MILES * (PI / 2) ->
  0 < u < 1 ->
  lon_center
  < snd (Geo.point_of_draws 0 lon_center radius_miles u (PI / 2)).
Proof.
  intros Hr Hu.
  pose proof GeoFacts.R_EARTH_MILES_pos as HR.
  pose proof PI_RGT_0 as Hpi.
  assert (Hang : 0 < radius_miles / Geo.R_EARTH_MILES < PI / 2).
  { split.
    - apply Rdiv_lt_0_compat; lra.
    - apply (Rmult_lt_reg_r Geo.R_EARTH_MILES); [exact HR | ].
      unfold Rdiv at 1. rewrite Rmult_assoc, Rinv_l by lra. lra. }
  destruct (GeoFacts.theta_within (radius_miles / Geo.R_EARTH_MILES) u
              ltac:(lra) ltac:(lra)) as (Hth & Hle & Hcos).
  set (theta := acos (1 - u * (1 - cos (radius_miles / Geo.R_EARTH_MILES))))
    in *.
  assert (Hth_pos : 0 < theta).
  { destruct Hth as [[Hpos | Hz] _]; [exact Hpos | ].
    exfalso. rewrite <- Hz, cos_0 in Hcos.
    assert (cos (radius_miles / Geo.R_EARTH_MILES) < 1).
    { rewrite <- cos_0. apply cos_decreasing_1; lra. }
    nra. }
  assert (Hcos_pos : 0 < cos theta) by (apply cos_gt_0; lra).
  assert (Hpoint :
    Geo.point_of_draws 0 lon_center radius_miles u (PI / 2)
    = (0, lon_center + Geo.degrees theta)).
  { unfold Geo.point_of_draws. fold theta.
    replace (Geo.radians 0) with 0 by (unfold Geo.radians; ring).
    rewrite sin_0, cos_0, cos_PI2, sin_PI2.
    replace (0 * cos theta + 1 * sin theta * 0) with 0 by ring.
    rewrite asin_0, sin_0.
    replace (1 * sin theta * 1) with (sin theta) by ring.
    replace (cos theta - 0 * 0) with (cos theta) by ring.
    unfold Geo.atan2. destruct (Rlt_dec 0 (cos theta)); [ | lra].
    fold (tan theta). rewrite atan_tan by lra.
    f_equal.
    - unfold Geo.degrees. ring.
    - rewrite GeoExtraFacts.degrees_plus, GeoFacts.degrees_radians.
      reflexivity. }
  rewrite Hpoint. cbn [snd].
  assert (0 < Geo.degrees theta).
  { replace 0 with (Geo.degrees 0) by (unfold Geo.degrees; ring).
    now apply GeoExtraFacts.degrees_lt. }
  lra.
Qed.

Lemma east_of_center_no_wrap_witness :
  180 < snd (Geo.point_of_draws 0 180 1 (1 / 2) (PI / 2)).
Proof.
  apply (east_of_center_no_wrap 180 1 (1 / 2)).
  - pose proof PI2_1. unfold Geo.R_EARTH_MILES. split; nra.
  - lra.
Defined.

Local Close Scope R_scope.

Module Geo64ExtraFacts.

Import Floats Geo64.
Local Open Scope float_scope.
Local Set Warnings "-inexact-float".

(** X15.  On binary64, when the draw [u] is 0.0 the polar angle is 0
    exactly, whatever the radius: the sampler returns what lines 37-49
    compute at angular distance 0 from the center, as it does for radius
    0.  The C library is any that gives [acos(1) = 0] and a finite cosine
    of the angular radius, whose difference from 1 is finite. *)
Theorem draw_zero_polar_angle_is_zero
    (libm : Libm) (lat_center lon_center radius_miles bearing : float) :
  is_finite (m_cos libm (radius_miles / R_EARTH_MILES)) = true ->
  is_finite (1 - m_cos libm (radius_miles / R_EARTH_MILES)) = true ->
  m_acos libm 1 = 0 ->
  polar_angle libm radius_miles 0 = Returned 0
  /\ point_of_draws libm lat_center lon_center radius_miles 0 bearing
     = destination libm lat_center lon_center 0 bearing.
Proof.
  intros Hcos Hsub Hacos.
  assert (Htheta : polar_angle libm radius_miles 0 = Returned 0).
  { unfold polar_angle. cbv zeta.
    rewrite (Geo64Facts.math_1_finite _ _ Hcos). cbn [and_then].
    rewrite (Geo64Facts.one_sub_zero _ (Geo64Facts.zero_mul_finite _ Hsub)).
    rewrite Geo64Facts.math_1_finite by (now rewrite Hacos).
    now rewrite Hacos. }
  split; [exact Htheta | ].
  unfold point_of_draws. now rewrite Htheta.
Qed.

Lemma draw_zero_polar_angle_is_zero_witness :
  polar_angle small_angles 25 0 = Returned 0
  /\ point_of_draws small_angles 40 (-75) 25 0 1
     = destination small_angles 40 (-75) 0 1.
Proof.
  apply (draw_zero_polar_angle_is_zero small_angles 40 (-75) 25 1);
    reflexivity.
Defined.

Lemma negative_radius_same_point_on_binary64_witness :
  point_of_draws small_angles 40 (-75) (- 25) 0.5 1
  = point_of_draws small_angles 40 (-75) 25 0.5 1
  /\ point_of_draws small_angles 40 (-75) 25 0.5 1
     = Returned (40.096351356888121, -74.621647124772394).
Proof.
  split.
  - apply (Geo64Facts.negative_radius_same_point_on_binary64
             small_angles 40 (-75) 25 0.5 1).
    apply Geo64Facts.small_angles_cos_even.
  - vm_compute. reflexivity.
Defined.

End Geo64ExtraFacts.
